(** * The dynamic component rendering pipeline (POST /render)

    A shallow embedding of the request handler of the React SSR service
    (the TypeScript server that follows the install script in
    [src/scripts/install-components.js], lines 163-385).

    The handler is JavaScript glue around external collaborators: the Babel
    compiler, the JavaScript engine ([new Function]), React and
    ReactDOMServer, Node's [require], [path] and [fs].  The glue is embedded
    statement by statement in a small state-and-exception monad; the
    collaborators are the fields of the [Runtime] interface. *)

From Stdlib Require Import ZArith String Ascii List Bool Decimal DecimalString.
From stdpp Require Import base option gmap strings.

Set Warnings "-register-all".
Local Open Scope string_scope.
Local Open Scope list_scope.

(** ** Small string helpers *)

(** The line feed and the double quote, written by their character codes. *)
Definition nl : string := String "010"%char EmptyString.
Definition dq : string := String "034"%char EmptyString.

Fixpoint concat_lines (ls : list string) : string :=
  match ls with
  | [] => EmptyString
  | [l] => l
  | l :: rest => l +:+ nl +:+ concat_lines rest
  end.

Definition string_of_Z (n : Z) : string :=
  NilZero.string_of_int (Z.to_int n).

(** ** JavaScript values *)

Module Js.

(** The values that flow through the handler: JSON data of the request body,
    what user code leaves in [module.exports], and what gets thrown.
    Numbers are the integers plus [NaN] (the handler only ever tests a
    number for truthiness and takes its [typeof]); a function is known by
    its source text, which is what [String(f)] returns. *)
Inductive Value : Type :=
| VUndefined
| VNull
| VBool (b : bool)
| VNum (n : Z)
| VNaN
| VStr (s : string)
| VArr (items : list Value)
| VObj (fields : list (string * Value))
| VError (name message stack : string)
| VFun (src : string).

(** [!!v] *)
Definition truthy (v : Value) : bool :=
  match v with
  | VUndefined | VNull | VNaN => false
  | VBool b => b
  | VNum n => negb (n =? 0)%Z
  | VStr s => negb (String.eqb s EmptyString)
  | VArr _ | VObj _ | VError _ _ _ | VFun _ => true
  end.

(** [typeof v] *)
Definition typeof (v : Value) : string :=
  match v with
  | VUndefined => "undefined"
  | VNull => "object"
  | VBool _ => "boolean"
  | VNum _ | VNaN => "number"
  | VStr _ => "string"
  | VArr _ | VObj _ | VError _ _ _ => "object"
  | VFun _ => "function"
  end.

Fixpoint assoc (k : string) (fields : list (string * Value)) : Value :=
  match fields with
  | [] => VUndefined
  | (k', v) :: rest => if String.eqb k k' then v else assoc k rest
  end.

(** [v?.k] for the keys the handler reads ([code], [props], [message],
    [stack]): an own property of an object, the fields of an [Error], and
    [undefined] on everything else, [null] and [undefined] included. *)
Definition get (v : Value) (k : string) : Value :=
  match v with
  | VObj fields => assoc k fields
  | VError name message stack =>
      if String.eqb k "message" then VStr message
      else if String.eqb k "stack" then VStr stack
      else if String.eqb k "name" then VStr name
      else VUndefined
  | _ => VUndefined
  end.

(** [a ?? b] *)
Definition nullish (a b : Value) : Value :=
  match a with
  | VUndefined | VNull => b
  | _ => a
  end.

(** [String(v)], with [Array.prototype.join] and [Error.prototype.toString]. *)
Fixpoint ToString (v : Value) : string :=
  match v with
  | VUndefined => "undefined"
  | VNull => "null"
  | VBool true => "true"
  | VBool false => "false"
  | VNum n => string_of_Z n
  | VNaN => "NaN"
  | VStr s => s
  | VArr items =>
      (fix join (l : list Value) : string :=
         match l with
         | [] => EmptyString
         | x :: rest =>
             let sx := match x with
                       | VUndefined | VNull => EmptyString
                       | _ => ToString x
                       end in
             match rest with
             | [] => sx
             | _ :: _ => sx +:+ "," +:+ join rest
             end
         end) items
  | VObj _ => "[object Object]"
  | VError name message _ =>
      if String.eqb name EmptyString then message
      else if String.eqb message EmptyString then name
      else name +:+ ": " +:+ message
  | VFun src => src
  end.

(** What [JSON.stringify] keeps of a value, as a JSON value again; [None] is
    the [undefined] that makes an object drop the property. *)
Fixpoint to_json (v : Value) : option Value :=
  match v with
  | VUndefined | VFun _ => None
  | VNaN => Some VNull
  | VNull | VBool _ | VNum _ | VStr _ => Some v
  | VArr items =>
      Some (VArr ((fix each (l : list Value) : list Value :=
                     match l with
                     | [] => []
                     | x :: rest =>
                         match to_json x with
                         | Some j => j
                         | None => VNull
                         end :: each rest
                     end) items))
  | VObj fields =>
      Some (VObj ((fix each (l : list (string * Value)) : list (string * Value) :=
                     match l with
                     | [] => []
                     | (k, x) :: rest =>
                         match to_json x with
                         | Some j => (k, j) :: each rest
                         | None => each rest
                         end
                     end) fields))
  | VError _ _ _ => Some (VObj [])
  end.

Definition has_key (k : string) (v : Value) : bool :=
  match v with
  | VObj fields => existsb (fun kv => String.eqb k (fst kv)) fields
  | _ => false
  end.

End Js.
Import Js.

(** ** The host process *)

(** The process-wide state a request can see: the registry object
    [predefinedComponents] built at startup, the files [fs.readFileSync]
    reads, [process.env.NODE_ENV], [__dirname] and [process.cwd()]. *)
Record Host : Type := {
  predefinedComponents : gmap string Value;
  fs : gmap string string;
  NODE_ENV : option string;
  dirname : string;
  cwd : string
}.

(** The own properties an object spread [{ ...v }] copies. *)
Definition own_properties (v : Value) : gmap string Value :=
  match v with
  | VObj fields => list_to_map fields
  | _ => ∅
  end.

(** The registry as startup builds it from the components package (lines
    203-208): the default export's entries, overridden by the named
    exports, without the [__esModule] marker. *)
Definition load_registry (mod_ : Value) : gmap string Value :=
  delete "__esModule"
    (own_properties (if truthy mod_ then mod_ else VObj [])
     ∪ own_properties (if truthy mod_ && truthy (get mod_ "default")
                       then get mod_ "default" else VObj [])).

(** How a step ends: with a value, or with a thrown JavaScript value. *)
Inductive Completion (A : Type) : Type :=
| Normal (a : A)
| Throw (e : Value).
Arguments Normal {A} a.
Arguments Throw {A} e.

(** Code outside the handler (the engine running user code, React calling
    the component) runs with full access to the host. *)
Definition Ext (A : Type) : Type := Host -> Completion A * Host.

(** Shared mutable objects are handed around by reference. *)
Inductive Ref : Type :=
| RegistryRef
| ModuleRef (moduleName : string).

(** [ref[k]] and [ref[k] = v] on a shared object; only the registry's
    properties are tracked. *)
Definition ref_get (r : Ref) (k : string) (h : Host) : Value :=
  match r with
  | RegistryRef => default VUndefined (predefinedComponents h !! k)
  | ModuleRef _ => VUndefined
  end.

Definition ref_set (r : Ref) (k : string) (v : Value) (h : Host) : Host :=
  match r with
  | RegistryRef =>
      {| predefinedComponents := <[k := v]> (predefinedComponents h);
         fs := fs h; NODE_ENV := NODE_ENV h; dirname := dirname h; cwd := cwd h |}
  | ModuleRef _ => h
  end.

(** [fs.readFileSync(path, 'utf8')] *)
Definition readFileSync (path : string) (h : Host) : Completion string :=
  match fs h !! path with
  | Some content => Normal content
  | None =>
      Throw (VError "Error"
               ("ENOENT: no such file or directory, open '" +:+ path +:+ "'")
               "Error: ENOENT")
  end.

(** ** The evaluation scope *)

(** The module record [{ exports: {} }] handed to the evaluated function. *)
Record ModuleRecord : Type := { exports : Value }.

Inductive HostBinding : Type := ReactLibrary | ConsoleObject.

(** The [context] object of the handler (lines 275-285). *)
Record Context : Type := {
  ctx_React : HostBinding;
  ctx_props : Value;
  ctx_console : HostBinding;
  ctx_require : string -> Ext Ref
}.

(** [Object.keys(context)] *)
Definition contextKeys : list string := ["React"; "props"; "console"; "require"].

(** What [new Function('module', ...contextKeys, code)] returns: called with
    the module record and the context values, it runs against the host and
    leaves its result in the module record. *)
Definition Program : Type := ModuleRecord -> Context -> Ext ModuleRecord.

(** ** The compiler configuration *)

Record BabelOptions : Type := {
  filename : string;
  presets : list (string * Value);
  babelrc : bool;
  configFile : bool
}.

(** [BabelFileResult | null], of which the handler reads [code] only. *)
Record BabelFileResult : Type := { bf_code : option string }.

(** The options object of lines 262-270. *)
Definition babel_options : BabelOptions := {|
  filename := "user-code.jsx";
  presets :=
    [ ("@babel/preset-react", VObj [("runtime", VStr "automatic")]);
      ("@babel/preset-env", VObj [("targets", VObj [("node", VStr "18")])]) ];
  babelrc := false;
  configFile := false
|}.

(** ** The collaborators *)

(** Everything the handler calls and does not define. *)
Class Runtime : Type := {
  ReactElement : Type;
  (** [Babel.transformSync(source, options)]; it may consult the host for
      configuration files. *)
  Babel_transformSync : string -> BabelOptions -> Host -> Completion (option BabelFileResult);
  (** [new Function(...params, body)] *)
  Function_new : list string -> string -> Completion Program;
  (** [React.createElement(type, props)] *)
  React_createElement : Value -> Value -> Ext ReactElement;
  (** [ReactDOMServer.renderToString(element)] *)
  ReactDOMServer_renderToString : ReactElement -> Ext string;
  (** Node's own [require(moduleName)] *)
  node_require : string -> Ext Ref;
  (** [path.join(...segments)] *)
  path_join : list string -> string
}.

(** ** Per-request state and the handler monad *)

Inductive Level : Type := LevelLog | LevelWarn | LevelError.

(** One [console.log] / [console.warn] / [console.error] call. *)
Record LogLine : Type := { level : Level; args : list Value }.

(** The express response object: the status code set so far (200 until
    [res.status] is called) and the JSON body once it has been sent. *)
Record Res : Type := { statusCode : nat; sent : option Value }.

Definition fresh_res : Res := {| statusCode := 200; sent := None |}.

(** The calls the handler makes to its collaborators, in order. *)
Inductive Call : Type :=
| CallTransform (source : string) (options : BabelOptions)
| CallFunction (params : list string) (body : string)
| CallExec (moduleObj : ModuleRecord) (props : Value)
| CallCreateElement (type props : Value)
| CallRenderToString
| CallReadFile (path : string).

Record State : Type := {
  st_host : Host;
  st_console : list LogLine;
  st_res : Res;
  st_calls : list Call
}.

Definition M (A : Type) : Type := State -> Completion A * State.

Definition ret {A} (a : A) : M A := fun s => (Normal a, s).

Definition bind {A B} (m : M A) (k : A -> M B) : M B :=
  fun s =>
    match m s with
    | (Normal a, s') => k a s'
    | (Throw e, s') => (Throw e, s')
    end.

Definition throw {A} (e : Value) : M A := fun s => (Throw e, s).

(** [try { body } catch (error) { handler }] *)
Definition try_catch {A} (body : M A) (handler : Value -> M A) : M A :=
  fun s =>
    match body s with
    | (Normal a, s') => (Normal a, s')
    | (Throw e, s') => handler e s'
    end.

Declare Scope js_scope.
Delimit Scope js_scope with js.
Notation "'let!' x ':=' m 'in' k" := (bind m (fun x => k))
  (at level 10, x name, m at level 100, k at level 200) : js_scope.
Notation "m ';;' k" := (bind m (fun _ => k))
  (at level 100, k at level 200, right associativity) : js_scope.
Local Open Scope js_scope.

Definition with_host (h : Host) (s : State) : State :=
  {| st_host := h; st_console := st_console s; st_res := st_res s; st_calls := st_calls s |}.

(** Run external code against the host. *)
Definition ext {A} (f : Ext A) : M A :=
  fun s => let (c, h) := f (st_host s) in (c, with_host h s).

(** Read the host without changing it. *)
Definition ask {A} (f : Host -> Completion A) : M A :=
  fun s => (f (st_host s), s).

Definition called (c : Call) : M unit :=
  fun s =>
    (Normal tt,
     {| st_host := st_host s; st_console := st_console s; st_res := st_res s;
        st_calls := st_calls s ++ [c] |}).

Definition console_ (l : Level) (a : list Value) : M unit :=
  fun s =>
    (Normal tt,
     {| st_host := st_host s;
        st_console := st_console s ++ [{| level := l; args := a |}];
        st_res := st_res s; st_calls := st_calls s |}).

(** [new Error(message)] *)
Definition new_Error (message : string) : Value :=
  VError "Error" message ("Error: " +:+ message).

(** [res.status(code)] *)
Definition res_status (code : nat) : M unit :=
  fun s =>
    (Normal tt,
     {| st_host := st_host s; st_console := st_console s;
        st_res := {| statusCode := code; sent := sent (st_res s) |};
        st_calls := st_calls s |}).

(** [res.json(body)]: express refuses to send a second response. *)
Definition res_json (body : Value) : M unit :=
  fun s =>
    match sent (st_res s) with
    | Some _ =>
        (Throw (new_Error "Cannot set headers after they are sent to the client"), s)
    | None =>
        (Normal tt,
         {| st_host := st_host s; st_console := st_console s;
            st_res := {| statusCode := statusCode (st_res s);
                         sent := Some (default VNull (to_json body)) |};
            st_calls := st_calls s |})
    end.

(** ** The handler of POST /render (lines 244-363) *)

Definition registry_name : string := "@react-renderer/components".
Definition trailer : string := nl +:+ "module.exports = MyComponent;".
Definition no_component_message : string :=
  "No valid component factory returned from user code".

(** The text of the document around the two interpolations (lines 330-346). *)
Definition doc_head : string :=
  concat_lines
    [ "<!DOCTYPE html>";
      "<html lang=" +:+ dq +:+ "en" +:+ dq +:+ ">";
      "<head>";
      "    <meta charset=" +:+ dq +:+ "UTF-8" +:+ dq +:+ ">";
      "    <meta name=" +:+ dq +:+ "viewport" +:+ dq +:+ " content=" +:+ dq
        +:+ "width=device-width, initial-scale=1.0" +:+ dq +:+ ">";
      "    <title>React Component</title>";
      "    <style>";
      "        " ].

Definition doc_mid : string :=
  concat_lines
    [ EmptyString;
      "    </style>";
      "</head>";
      "<body>";
      "    <div id=" +:+ dq +:+ "app" +:+ dq +:+ ">";
      "        " ].

Definition doc_tail : string :=
  concat_lines
    [ EmptyString;
      "    </div>";
      "    ";
      "</body>";
      "</html>" ].

Definition completeHTML (cssContent html : string) : string :=
  doc_head +:+ cssContent +:+ doc_mid +:+ html +:+ doc_tail.

Section Handler.

Context {R : Runtime}.

(** The [require] entry of the context (lines 279-284): the registry itself
    for the reserved name, Node's resolver for every other name. *)
Definition require_ (moduleName : string) : Ext Ref :=
  if String.eqb moduleName registry_name
  then (fun h => (Normal RegistryRef, h))
  else node_require moduleName.

(** Lines 259-272: append the trailer, compile, insist on an output. *)
Definition transformer (code : Value) : M string :=
  let userSource := ToString code +:+ trailer in
  called (CallTransform userSource babel_options) ;;
  let! transformed := ask (Babel_transformSync userSource babel_options) in
  match transformed with
  | Some {| bf_code := Some c |} =>
      if String.eqb c EmptyString
      then throw (new_Error "Babel transform failed")
      else ret c
  | _ => throw (new_Error "Babel transform failed")
  end.

(** Lines 274-304: build the context, evaluate inside a function scope,
    validate what the module record exports. *)
Definition make_context (props : Value) : Context :=
  {| ctx_React := ReactLibrary; ctx_props := props;
     ctx_console := ConsoleObject; ctx_require := require_ |}.

Definition evaluator (transformed_code : string) (props : Value) : M Value :=
  let context := make_context props in
  called (CallFunction ("module" :: contextKeys) transformed_code) ;;
  let! execFn := ask (fun _ => Function_new ("module" :: contextKeys) transformed_code) in
  let moduleObj := {| exports := VObj [] |} in
  called (CallExec moduleObj (ctx_props context)) ;;
  let! moduleObj := ext (execFn moduleObj context) in
  let ComponentFactory := exports moduleObj in
  if negb (truthy ComponentFactory)
     || (negb (String.eqb (typeof ComponentFactory) "function")
         && negb (String.eqb (typeof ComponentFactory) "object"))
  then throw (new_Error no_component_message)
  else ret ComponentFactory.

(** Lines 306-308. *)
Definition renderer (ComponentFactory props : Value) : M string :=
  called (CallCreateElement ComponentFactory props) ;;
  let! element := ext (React_createElement ComponentFactory props) in
  called CallRenderToString ;;
  ext (ReactDOMServer_renderToString element).

Definition string_length (s : string) : Value := VNum (Z.of_nat (String.length s)).

(** Lines 310-327: the stylesheet is read for each request, first next to
    the package, then under the working directory, else left empty. *)
Definition read_css : M string :=
  let! cssPath := ask (fun h =>
    Normal (path_join [dirname h; "../node_modules/@react-renderer/components/styles.css"])) in
  try_catch
    (console_ LevelLog [VStr "CSS path:"; VStr cssPath] ;;
     called (CallReadFile cssPath) ;;
     let! cssContent := ask (readFileSync cssPath) in
     console_ LevelLog [VStr "CSS loaded successfully, size:"; string_length cssContent] ;;
     ret cssContent)
    (fun err =>
       console_ LevelWarn [VStr "Could not read CSS file:"; err] ;;
       let! altCssPath := ask (fun h => Normal (path_join [cwd h; "dist"; "styles.css"])) in
       try_catch
         (called (CallReadFile altCssPath) ;;
          let! cssContent := ask (readFileSync altCssPath) in
          console_ LevelLog
            [VStr "CSS loaded from alternative path, size:"; string_length cssContent] ;;
          ret cssContent)
         (fun altErr =>
            console_ LevelWarn [VStr "Could not read CSS from alternative path:"; altErr] ;;
            ret EmptyString)).

Definition success_body (html : string) : Value :=
  VObj [ ("success", VBool true);
         ("html", VStr html);
         ("message", VStr "Complete HTML document generated successfully") ].

(** The body of the [try] block (lines 251-352). *)
Definition render_try (req_body : Value) : M unit :=
  let body := nullish req_body (VObj []) in
  let code := get body "code" in
  let props := match get body "props" with VUndefined => VObj [] | p => p end in
  if negb (truthy code) || negb (String.eqb (typeof code) "string")
  then
    res_status 400 ;;
    res_json (VObj [("success", VBool false); ("error", VStr "No code provided")])
  else
    let! transformed_code := transformer code in
    let! ComponentFactory := evaluator transformed_code props in
    let! html := renderer ComponentFactory props in
    let! cssContent := read_css in
    res_json (success_body (completeHTML cssContent html)).

(** [error?.message || String(error)] *)
Definition error_text (error : Value) : Value :=
  if truthy (get error "message") then get error "message" else VStr (ToString error).

(** [process.env.NODE_ENV === 'development'] *)
Definition is_development (env : option string) : bool :=
  match env with
  | Some mode => String.eqb mode "development"
  | None => false
  end.

(** The object literal of lines 356-360. *)
Definition failure_body (error : Value) (env : option string) : Value :=
  VObj [ ("success", VBool false);
         ("error", error_text error);
         ("stack", if is_development env then get error "stack" else VUndefined) ].

(** The [catch] block (lines 353-361). *)
Definition render_catch (error : Value) : M unit :=
  console_ LevelError [VStr "Rendering error:"; error] ;;
  let! env := ask (fun h => Normal (NODE_ENV h)) in
  res_status 400 ;;
  res_json (failure_body error env).

Definition post_render (req_body : Value) : M unit :=
  try_catch (render_try req_body) render_catch.

(** Transformation, evaluation and rendering in sequence (lines 259-308). *)
Definition stages (code props : Value) : M string :=
  let! transformed_code := transformer code in
  let! ComponentFactory := evaluator transformed_code props in
  renderer ComponentFactory props.

(** The two places the stylesheet is looked for (lines 311 and 320). *)
Definition cssPath (h : Host) : string :=
  path_join [dirname h; "../node_modules/@react-renderer/components/styles.css"].

Definition altCssPath (h : Host) : string :=
  path_join [cwd h; "dist"; "styles.css"].

(** What lines 310-327 leave in [cssContent]. *)
Definition stylesheet_of (h : Host) : string :=
  match fs h !! cssPath h with
  | Some content => content
  | None =>
      match fs h !! altCssPath h with
      | Some content => content
      | None => EmptyString
      end
  end.

(** ** The server *)

(** What survives a request: the host and the console output. *)
Record Server : Type := { srv_host : Host; srv_console : list LogLine }.

(** What one request produces. *)
Record Exchange : Type := {
  outcome : Completion unit;
  response : Res;
  trace : list Call;
  after : Server
}.

(** Dispatch one POST /render: a fresh response object, the handler, and
    whatever it left behind. *)
Definition serve (req_body : Value) (srv : Server) : Exchange :=
  let s0 := {| st_host := srv_host srv; st_console := srv_console srv;
               st_res := fresh_res; st_calls := [] |} in
  let (c, s) := post_render req_body s0 in
  {| outcome := c; response := st_res s; trace := st_calls s;
     after := {| srv_host := st_host s; srv_console := st_console s |} |}.

End Handler.

(** ** Reading a request and an exchange *)

(** The two destructured fields of line 251. *)
Definition request_code (req_body : Value) : Value :=
  get (nullish req_body (VObj [])) "code".

Definition request_props (req_body : Value) : Value :=
  match get (nullish req_body (VObj [])) "props" with
  | VUndefined => VObj []
  | p => p
  end.

Definition is_nonempty_string (v : Value) : bool :=
  match v with
  | VStr s => negb (String.eqb s EmptyString)
  | _ => false
  end.

(** A function or a non-null object. *)
Definition is_function_or_object (v : Value) : bool :=
  match v with
  | VFun _ | VObj _ | VArr _ | VError _ _ _ => true
  | _ => false
  end.

Definition response_body (ex : Exchange) : Value :=
  default VUndefined (sent (response ex)).

Definition is_transform (c : Call) : bool :=
  match c with CallTransform _ _ => true | _ => false end.

Definition is_createElement (c : Call) : bool :=
  match c with CallCreateElement _ _ => true | _ => false end.

Definition transformer_invoked (ex : Exchange) : bool := existsb is_transform (trace ex).

(** What goes on the wire for a body handed to [res.json]. *)
Definition wire (body : Value) : Value := default VNull (to_json body).

(** The response of the validation step (lines 253-257). *)
Definition rejection : Res :=
  {| statusCode := 400;
     sent := Some (VObj [("success", VBool false); ("error", VStr "No code provided")]) |}.

(** The state a request starts in. *)
Definition initial (srv : Server) : State :=
  {| st_host := srv_host srv; st_console := srv_console srv;
     st_res := fresh_res; st_calls := [] |}.

(** ** The validation rule in the words of the specification *)

Definition is_space (c : ascii) : bool :=
  let n := nat_of_ascii c in
  (Nat.leb 9 n && Nat.leb n 13) || Nat.eqb n 32.

Fixpoint all_whitespace (s : string) : bool :=
  match s with
  | EmptyString => true
  | String c rest => is_space c && all_whitespace rest
  end.

(** "Reject if [code] is missing, not text, or empty after trimming." *)
Definition spec_rejects_code (code : Value) : bool :=
  match code with
  | VStr s => all_whitespace s
  | _ => true
  end.

(** ** A test double for the collaborators

    A stand-in runtime that knows a handful of submissions, used to run the
    handler on concrete requests.  Each program below is the behaviour of
    the JavaScript text next to it. *)

Module Fixture.

(** [function MyComponent(p) { return <h1>{p.title}</h1>; }] *)
Definition hello_src : string :=
  "function MyComponent(p) { return <h1>{p.title}</h1>; }".

(** [const MyComponent = React.memo(() => <p>hi</p>);] *)
Definition memo_src : string :=
  "const MyComponent = React.memo(() => <p>hi</p>);".

(** [const MyComponent = 42;] *)
Definition number_src : string := "const MyComponent = 42;".

(** A component that counts the submissions in the registry object. *)
Definition counter_src : string :=
  "const reg = require('@react-renderer/components'); "
  +:+ "reg.hits = (reg.hits || 0) + 1; "
  +:+ "function MyComponent() { return <p>{reg.hits}</p>; }".

(** Whitespace only: nothing defines [MyComponent]. *)
Definition blank_src : string := "   ".

Definition known_sources : list string :=
  [hello_src; memo_src; number_src; counter_src; blank_src].

Definition use_strict : string := "'use strict';" +:+ nl.

(** The compiler: known submissions compile (the compiled text stands for
    Babel's output), anything else is a syntax error. *)
Definition transformSync (source : string) (options : BabelOptions) (h : Host)
  : Completion (option BabelFileResult) :=
  if existsb (fun known => String.eqb source (known +:+ trailer)) known_sources
  then Normal (Some {| bf_code := Some (use_strict +:+ source) |})
  else Throw (VError "SyntaxError" "user-code.jsx: Unexpected token (1:0)"
                "SyntaxError: user-code.jsx: Unexpected token (1:0)").

Definition hello_fn : Value := VFun hello_src.
Definition counter_fn_src : string :=
  "function MyComponent() { return <p>{reg.hits}</p>; }".
Definition counter_fn : Value := VFun counter_fn_src.
Definition memo_object : Value :=
  VObj [ ("$$typeof", VStr "Symbol(react.memo)");
         ("type", VFun "() => <p>hi</p>");
         ("compare", VNull) ].

Definition export (v : Value) : Program :=
  fun _ _ h => (Normal {| exports := v |}, h).

(** [reg = require(name); reg.hits = (reg.hits || 0) + 1; module.exports = ...] *)
Definition counter_program : Program :=
  fun _ ctx h =>
    match ctx_require ctx registry_name h with
    | (Normal reg, h1) =>
        let hits := match ref_get reg "hits" h1 with
                    | VNum n => (n + 1)%Z
                    | _ => 1%Z
                    end in
        (Normal {| exports := counter_fn |}, ref_set reg "hits" (VNum hits) h1)
    | (Throw e, h1) => (Throw e, h1)
    end.

(** [module.exports = MyComponent] with no such binding in scope. *)
Definition blank_program : Program :=
  fun _ _ h =>
    (Throw (VError "ReferenceError" "MyComponent is not defined"
              "ReferenceError: MyComponent is not defined"), h).

Definition compiled (src : string) : string := use_strict +:+ src +:+ trailer.

(** The engine: the function whose body is the compiled text. *)
Definition Function_ (params : list string) (body : string) : Completion Program :=
  if String.eqb body (compiled hello_src) then Normal (export hello_fn)
  else if String.eqb body (compiled memo_src) then Normal (export memo_object)
  else if String.eqb body (compiled number_src) then Normal (export (VNum 42))
  else if String.eqb body (compiled counter_src) then Normal counter_program
  else if String.eqb body (compiled blank_src) then Normal blank_program
  else Throw (VError "SyntaxError" "Unexpected token" "SyntaxError: Unexpected token").

(** React keeps the component and its properties in the element. *)
Definition createElement (type props : Value) : Ext (Value * Value) :=
  fun h => (Normal (type, match props with VObj _ => props | _ => VObj [] end), h).

(** Text children: strings and numbers print, everything else is empty. *)
Definition text (v : Value) : string :=
  match v with
  | VStr s => s
  | VNum n => string_of_Z n
  | _ => EmptyString
  end.

Definition renderToString (element : Value * Value) : Ext string :=
  fun h =>
    match fst element with
    | VFun src =>
        if String.eqb src hello_src
        then (Normal ("<h1>" +:+ text (get (snd element) "title") +:+ "</h1>"), h)
        else if String.eqb src counter_fn_src
        then (Normal ("<p>" +:+ text (ref_get RegistryRef "hits" h) +:+ "</p>"), h)
        else (Throw (new_Error "Objects are not valid as a React child"), h)
    | VObj (("$$typeof", VStr "Symbol(react.memo)") :: _) => (Normal "<p>hi</p>", h)
    | _ => (Throw (new_Error "Element type is invalid"), h)
    end.

Definition join_paths (segments : list string) : string :=
  String.concat "/" segments.

Definition runtime : Runtime := {|
  ReactElement := Value * Value;
  Babel_transformSync := transformSync;
  Function_new := Function_;
  React_createElement := createElement;
  ReactDOMServer_renderToString := renderToString;
  node_require := fun moduleName h => (Normal (ModuleRef moduleName), h);
  path_join := join_paths
|}.

Definition css_path : string :=
  "/srv/dist/../node_modules/@react-renderer/components/styles.css".

Definition stylesheet : string := "body{margin:0}".

Definition host (mode : option string) (files : gmap string string) : Host := {|
  predefinedComponents := {[ "Button" := VFun "function Button(props) { ... }" ]};
  fs := files;
  NODE_ENV := mode;
  dirname := "/srv/dist";
  cwd := "/srv"
|}.

Definition server (mode : option string) (files : gmap string string) : Server :=
  {| srv_host := host mode files; srv_console := [] |}.

Definition with_css : gmap string string := {[ css_path := stylesheet ]}.

(** Somebody rewrites a file between two requests. *)
Definition rewrite_file (path content : string) (srv : Server) : Server :=
  {| srv_host :=
       {| predefinedComponents := predefinedComponents (srv_host srv);
          fs := <[path := content]> (fs (srv_host srv));
          NODE_ENV := NODE_ENV (srv_host srv);
          dirname := dirname (srv_host srv);
          cwd := cwd (srv_host srv) |};
     srv_console := srv_console srv |}.

(** The request body [{ code, props }]. *)
Definition request (code : string) (props : Value) : Value :=
  VObj [("code", VStr code); ("props", props)].

End Fixture.


(** ** The document in the words of the specification *)

(** "A fixed head with charset/viewport metadata and a title, an inlined
    style block containing the stylesheet, and a body wrapping the fragment
    in a container element with a fixed identifier." *)
Definition spec_head (stylesheet : string) : list string :=
  [ "<head>";
    "    <meta charset=" +:+ dq +:+ "UTF-8" +:+ dq +:+ ">";
    "    <meta name=" +:+ dq +:+ "viewport" +:+ dq +:+ " content=" +:+ dq
      +:+ "width=device-width, initial-scale=1.0" +:+ dq +:+ ">";
    "    <title>React Component</title>";
    "    <style>";
    "        " +:+ stylesheet;
    "    </style>";
    "</head>" ].

Definition spec_body (fragment : string) : list string :=
  [ "<body>";
    "    <div id=" +:+ dq +:+ "app" +:+ dq +:+ ">";
    "        " +:+ fragment;
    "    </div>";
    "    ";
    "</body>" ].

Definition spec_document (stylesheet fragment : string) : string :=
  concat_lines
    ([ "<!DOCTYPE html>"; "<html lang=" +:+ dq +:+ "en" +:+ dq +:+ ">" ]
     ++ spec_head stylesheet ++ spec_body fragment ++ [ "</html>" ]).



(** ** Who can change the host *)


(** One run of code that is not the handler's own, during a request with
    the given [props]: the evaluated user function, called with a fresh
    module record and the context, and the two React calls. *)
Inductive external_step {R : Runtime} (props : Value) : Host -> Host -> Prop :=
| step_user_code params body execFn h :
    Function_new params body = Normal execFn ->
    external_step props h
      (snd (execFn {| exports := VObj [] |} (make_context props) h))
| step_createElement type h :
    external_step props h (snd (React_createElement type props h))
| step_renderToString element h :
    external_step props h (snd (ReactDOMServer_renderToString element h)).

(** ** What a step may depend on *)

(** Two states that differ in the console output only. *)
Definition same_but_console (s t : State) : Prop :=
  st_host s = st_host t /\ st_res s = st_res t /\ st_calls s = st_calls t.

(** A step that never looks at the console output. *)
Definition console_blind {A} (m : M A) : Prop :=
  forall s t, same_but_console s t ->
    fst (m s) = fst (m t) /\ same_but_console (snd (m s)) (snd (m t)).

(** ** Vocabulary of the proofs *)

(** A step that leaves the response object alone. *)
Definition keeps_res {A} (m : M A) : Prop :=
  forall s c s', m s = (c, s') -> st_res s' = st_res s.

(** * The rest of the service, the page and the scripts *)

(** ** Startup and the other routes *)

(** How the process comes up (lines 199-219): with the registry, or not at
    all. *)
Inductive Startup : Type :=
| Listening (registry : gmap string Value)
| Exited (code : nat) (console : list LogLine).

(** [Object.keys(obj)] of a registry.  The registry is kept as a finite
    map, so the order in which JavaScript enumerates the keys is not
    tracked. *)
Definition Object_keys (m : gmap string Value) : list string :=
  (map_to_list m).*1.

(** The [try]/[catch] around [require(componentsPackage)]: what the package
    exports becomes the registry; a package that cannot be loaded ends the
    process with code 1. *)
Definition load_components (required : Completion Value) : Startup :=
  match required with
  | Normal mod_ => Listening (load_registry mod_)
  | Throw err =>
      Exited 1
        [ {| level := LevelError;
             args := [VStr "❌ Failed to load components from node_modules/@react-renderer/components"] |};
          {| level := LevelError;
             args := [VStr "💡 Make sure to run: npm run build:components"] |};
          {| level := LevelError;
             args := [VStr "Error:";
                      if truthy (get err "message") then get err "message" else err] |} ]
  end.

(** GET /health (lines 366-368). *)
Definition get_health : Res :=
  {| statusCode := 200;
     sent := Some (wire (VObj [ ("status", VStr "OK");
                                ("message", VStr "React SSR service is running") ])) |}.

(** GET /components (lines 371-378). *)
Definition get_components (h : Host) : Res :=
  let componentNames :=
    map (fun name => VObj [("name", VStr name)]) (Object_keys (predefinedComponents h)) in
  {| statusCode := 200;
     sent := Some (wire (VObj [ ("success", VBool true);
                                ("components", VArr componentNames);
                                ("count", VNum (Z.of_nat (length componentNames))) ])) |}.



Definition warnings (lines : list LogLine) : list LogLine :=
  List.filter (fun l => match level l with LevelWarn => true | _ => false end) lines.

(** ** The editor page

    The page that posts the source text and shows what comes back
    ([src/unnamed/part_000]).  Strings are sequences of 8-bit code units
    here, so of the characters [trim] strips only those below 256 exist. *)

Module App.

Definition API_BASE_URL : string := "http://localhost:3001".

(** The example the editor starts with (lines 6-61). *)
Definition exampleCode : string :=
  concat_lines
    [ "import { Accordion, AccordionItem, AccordionTrigger, AccordionContent } from " +:+ dq +:+ "@react-renderer/components" +:+ dq +:+ ";";
      EmptyString;
      "function MyComponent() {";
      "  return (";
      "    <Accordion";
      "      type=" +:+ dq +:+ "single" +:+ dq;
      "      collapsible";
      "      className=" +:+ dq +:+ "w-full" +:+ dq;
      "      defaultValue=" +:+ dq +:+ "item-1" +:+ dq;
      "    >";
      "      <AccordionItem value=" +:+ dq +:+ "item-1" +:+ dq +:+ ">";
      "        <AccordionTrigger>Product Information</AccordionTrigger>";
      "        <AccordionContent className=" +:+ dq +:+ "flex flex-col gap-4 text-balance" +:+ dq +:+ ">";
      "          <p>";
      "            Our flagship product combines cutting-edge technology with sleek";
      "            design. Built with premium materials, it offers unparalleled";
      "            performance and reliability.";
      "          </p>";
      "          <p>";
      "            Key features include advanced processing capabilities, and an";
      "            intuitive user interface designed for both beginners and experts.";
      "          </p>";
      "        </AccordionContent>";
      "      </AccordionItem>";
      "      <AccordionItem value=" +:+ dq +:+ "item-2" +:+ dq +:+ ">";
      "        <AccordionTrigger>Shipping Details</AccordionTrigger>";
      "        <AccordionContent className=" +:+ dq +:+ "flex flex-col gap-4 text-balance" +:+ dq +:+ ">";
      "          <p>";
      "            We offer worldwide shipping through trusted courier partners.";
      "            Standard delivery takes 3-5 business days, while express shipping";
      "            ensures delivery within 1-2 business days.";
      "          </p>";
      "          <p>";
      "            All orders are carefully packaged and fully insured. Track your";
      "            shipment in real-time through our dedicated tracking portal.";
      "          </p>";
      "        </AccordionContent>";
      "      </AccordionItem>";
      "      <AccordionItem value=" +:+ dq +:+ "item-3" +:+ dq +:+ ">";
      "        <AccordionTrigger>Return Policy</AccordionTrigger>";
      "        <AccordionContent className=" +:+ dq +:+ "flex flex-col gap-4 text-balance" +:+ dq +:+ ">";
      "          <p>";
      "            We stand behind our products with a comprehensive 30-day return";
      "            policy. If you&apos;re not completely satisfied, simply return the";
      "            item in its original condition.";
      "          </p>";
      "          <p>";
      "            Our hassle-free return process includes free return shipping and";
      "            full refunds processed within 48 hours of receiving the returned";
      "            item.";
      "          </p>";
      "        </AccordionContent>";
      "      </AccordionItem>";
      "    </Accordion>";
      "  );";
      "}" ].

(** The white space and line terminators of JavaScript below 256: tab, line
    feed, vertical tab, form feed, carriage return, space, no-break space. *)
Definition is_whitespace (c : ascii) : bool :=
  let n := nat_of_ascii c in
  (Nat.leb 9 n && Nat.leb n 13) || Nat.eqb n 32 || Nat.eqb n 160.

Fixpoint trimStart (s : string) : string :=
  match s with
  | EmptyString => EmptyString
  | String c rest => if is_whitespace c then trimStart rest else s
  end.

Fixpoint trimEnd (s : string) : string :=
  match s with
  | EmptyString => EmptyString
  | String c rest =>
      match trimEnd rest with
      | EmptyString => if is_whitespace c then EmptyString else String c EmptyString
      | kept => String c kept
      end
  end.

(** [s.trim()] *)
Definition trim (s : string) : string := trimEnd (trimStart s).

(** The five [useState] cells of the page (lines 81-87). *)
Record State : Type := {
  code : string;
  renderedHTML : Value;
  loading : bool;
  error : Value;
  availableComponents : Value
}.

Definition initial : State :=
  {| code := exampleCode; renderedHTML := VStr EmptyString; loading := false;
     error := VStr EmptyString; availableComponents := VArr [] |}.

Definition setCode (v : string) (st : State) : State :=
  {| code := v; renderedHTML := renderedHTML st; loading := loading st;
     error := error st; availableComponents := availableComponents st |}.

Definition setRenderedHTML (v : Value) (st : State) : State :=
  {| code := code st; renderedHTML := v; loading := loading st;
     error := error st; availableComponents := availableComponents st |}.

Definition setLoading (v : bool) (st : State) : State :=
  {| code := code st; renderedHTML := renderedHTML st; loading := v;
     error := error st; availableComponents := availableComponents st |}.

Definition setError (v : Value) (st : State) : State :=
  {| code := code st; renderedHTML := renderedHTML st; loading := loading st;
     error := v; availableComponents := availableComponents st |}.

Definition setAvailableComponents (v : Value) (st : State) : State :=
  {| code := code st; renderedHTML := renderedHTML st; loading := loading st;
     error := error st; availableComponents := v |}.

(** Whether a request reaches the service; when it does not, axios rejects
    with an error that has a message and no response. *)
Inductive Network : Type :=
| Online
| Offline (message : string).

(** How axios settles on an answer: it resolves with the response for a
    status from 200 to 299 and rejects with an error carrying the response
    for any other status. *)
Definition settle (answer : Res) : Completion Value :=
  let response :=
    VObj [ ("data", default VUndefined (sent answer));
           ("status", VNum (Z.of_nat (statusCode answer))) ] in
  if Nat.leb 200 (statusCode answer) && Nat.ltb (statusCode answer) 300
  then Normal response
  else Throw (VObj [ ("message",
                      VStr ("Request failed with status code "
                            +:+ string_of_Z (Z.of_nat (statusCode answer))));
                     ("response", response) ]).

Definition network_error (message : string) : Value :=
  VObj [("message", VStr message)].

(** [a || b] *)
Definition or_else (a b : Value) : Value := if truthy a then a else b.

Section Page.

Context {R : Runtime}.

(** [axios.post(API_BASE_URL + '/render', data)] against the service: the
    data travels as JSON. *)
Definition axios_post_render (net : Network) (data : Value) (srv : Server)
  : Completion Value * Server :=
  match net with
  | Offline message => (Throw (network_error message), srv)
  | Online =>
      let ex := serve (wire data) srv in
      (settle (response ex), after ex)
  end.

(** [axios.get(API_BASE_URL + '/components')] *)
Definition axios_get_components (net : Network) (srv : Server) : Completion Value :=
  match net with
  | Offline message => Throw (network_error message)
  | Online => settle (get_components (srv_host srv))
  end.

(** [handleRender] (lines 108-139), run to its end. *)
Definition handleRender (net : Network) (st : State) (srv : Server) : State * Server :=
  if negb (truthy (VStr (trim (code st))))
  then (setError (VStr "Please enter some React component code") st, srv)
  else
    let st := setError (VStr EmptyString) (setLoading true st) in
    let data := VObj [("code", VStr (trim (code st))); ("props", VObj [])] in
    match axios_post_render net data srv with
    | (Normal response, srv') =>
        let st :=
          if truthy (get (get response "data") "success")
          then
            let html := or_else (get (get response "data") "html") (VStr EmptyString) in
            setRenderedHTML html st
          else
            setError (or_else (get (get response "data") "error")
                        (VStr "Unknown error occurred")) st in
        (setLoading false st, srv')
    | (Throw err, srv') =>
        let st :=
          setError
            (or_else (get (get (get err "response") "data") "error")
               (or_else (get err "message") (VStr "Failed to render component")))
            st in
        (setLoading false st, srv')
    end.

(** [fetchComponents] of the mount effect (lines 91-105); the second
    component is the warning it prints when the request fails. *)
Definition fetchComponents (net : Network) (st : State) (srv : Server)
  : State * list LogLine :=
  match axios_get_components net srv with
  | Normal response =>
      if truthy (get (get response "data") "success")
      then (setAvailableComponents (get (get response "data") "components") st, [])
      else (st, [])
  | Throw err =>
      (st, [ {| level := LevelWarn;
                args := [VStr "Failed to fetch available components:"; err] |} ])
  end.

End Page.

(** [handleClearCode] (lines 141-145) *)
Definition handleClearCode (st : State) : State :=
  setError (VStr EmptyString)
    (setRenderedHTML (VStr EmptyString) (setCode EmptyString st)).

(** [handleLoadExample] (lines 147-150) *)
Definition handleLoadExample (st : State) : State :=
  setError (VStr EmptyString) (setCode exampleCode st).

(** What the output section shows (lines 232-291). *)
Inductive Panel : Type :=
| ErrorPanel (text : Value)
| LoadingPanel
| PreviewPanel (srcDoc : Value)
| PlaceholderPanel.

Definition panels (st : State) : list Panel :=
  (if truthy (error st) then [ErrorPanel (error st)] else [])
  ++ (if loading st then [LoadingPanel] else [])
  ++ (if negb (loading st) && negb (truthy (error st)) && truthy (renderedHTML st)
      then [PreviewPanel (renderedHTML st)] else [])
  ++ (if negb (loading st) && negb (truthy (error st)) && negb (truthy (renderedHTML st))
      then [PlaceholderPanel] else []).

(** [disabled={loading || !code.trim()}] of the render button (line 217). *)
Definition render_disabled (st : State) : bool :=
  loading st || negb (truthy (VStr (trim (code st)))).

End App.

(** ** The files below the working directory

    Both build scripts only touch paths of the form
    [path.join(process.cwd(), ...)], so the tree is rooted at the working
    directory and a path is the list of its segments below it. *)

Module Fs.

Inductive Node : Type :=
| File (content : string)
| Dir (entries : list (string * Node)).

Definition Path : Type := list string.

Fixpoint child (name : string) (entries : list (string * Node)) : option Node :=
  match entries with
  | [] => None
  | (n, x) :: rest => if String.eqb name n then Some x else child name rest
  end.

Fixpoint remove (name : string) (entries : list (string * Node)) : list (string * Node) :=
  match entries with
  | [] => []
  | (n, x) :: rest =>
      if String.eqb name n then remove name rest else (n, x) :: remove name rest
  end.

(** Replace the entry in place, or add it after the others. *)
Fixpoint set (name : string) (x : Node) (entries : list (string * Node))
  : list (string * Node) :=
  match entries with
  | [] => [(name, x)]
  | (n, y) :: rest =>
      if String.eqb name n then (n, x) :: rest else (n, y) :: set name x rest
  end.

Inductive Resolved : Type :=
| Found (n : Node)
| Missing
| NotADirectory.

Fixpoint resolve (p : Path) (n : Node) : Resolved :=
  match p with
  | [] => Found n
  | name :: rest =>
      match n with
      | File _ => NotADirectory
      | Dir entries =>
          match child name entries with
          | Some c => resolve rest c
          | None => Missing
          end
      end
  end.

(** [fs.existsSync(p)] *)
Definition existsSync (p : Path) (n : Node) : bool :=
  match resolve p n with
  | Found _ => true
  | _ => false
  end.

(** Put a node at [p], or take away what is there; the directory that
    holds [p] has to exist. *)
Fixpoint put (p : Path) (new : option Node) (n : Node) : option Node :=
  match p with
  | [] => new
  | name :: rest =>
      match n with
      | File _ => None
      | Dir entries =>
          match rest with
          | [] =>
              Some (Dir (match new with
                         | Some x => set name x entries
                         | None => remove name entries
                         end))
          | _ :: _ =>
              match child name entries with
              | Some c =>
                  match put rest new c with
                  | Some c' => Some (Dir (set name c' entries))
                  | None => None
                  end
              | None => None
              end
          end
      end
  end.

(** Make the directory and the directories above it. *)
Fixpoint mkdirp (p : Path) (n : Node) : option Node :=
  match n with
  | File _ => None
  | Dir entries =>
      match p with
      | [] => Some n
      | name :: rest =>
          match mkdirp rest (default (Dir []) (child name entries)) with
          | Some c => Some (Dir (set name c entries))
          | None => None
          end
      end
  end.

Fixpoint is_prefix (p q : Path) : bool :=
  match p, q with
  | [], _ => true
  | a :: p', b :: q' => String.eqb a b && is_prefix p' q'
  | _ :: _, [] => false
  end.

Fixpoint same_path (p q : Path) : bool :=
  match p, q with
  | [], [] => true
  | a :: p', b :: q' => String.eqb a b && same_path p' q'
  | _, _ => false
  end.

End Fs.

(** ** The build scripts' process *)

Module Script.

(** The options of an [execSync] call that the scripts set. *)
Record ExecOptions : Type := {
  stdio : string;
  exec_cwd : option Fs.Path;
  INIT_CWD : option Fs.Path
}.

(** What the scripts call and do not define: the command that is run, the
    JSON text of [JSON.stringify(value, null, 2)], and the absolute path
    [path.join(process.cwd(), ...segments)]. *)
Class Shell : Type := {
  execSync : string -> ExecOptions -> Fs.Node -> Completion unit * Fs.Node;
  JSON_stringify : Value -> string;
  absolute : Fs.Path -> string
}.

Record Process : Type := {
  disk : Fs.Node;
  console : list LogLine;
  commands : list (string * ExecOptions)
}.

Definition Sh (A : Type) : Type := Process -> Completion A * Process.

Definition ret {A} (a : A) : Sh A := fun s => (Normal a, s).

Definition bind {A B} (m : Sh A) (k : A -> Sh B) : Sh B :=
  fun s =>
    match m s with
    | (Normal a, s') => k a s'
    | (Throw e, s') => (Throw e, s')
    end.

Definition throw {A} (e : Value) : Sh A := fun s => (Throw e, s).

Definition try_catch {A} (body : Sh A) (handler : Value -> Sh A) : Sh A :=
  fun s =>
    match body s with
    | (Normal a, s') => (Normal a, s')
    | (Throw e, s') => handler e s'
    end.

Declare Scope script_scope.
Delimit Scope script_scope with script.
Notation "'let!' x ':=' m 'in' k" := (bind m (fun x => k))
  (at level 10, x name, m at level 100, k at level 200) : script_scope.
Notation "m ';;' k" := (bind m (fun _ => k))
  (at level 100, k at level 200, right associativity) : script_scope.
Local Open Scope script_scope.

Definition print (l : Level) (a : list Value) : Sh unit :=
  fun s =>
    (Normal tt,
     {| disk := disk s; console := console s ++ [{| level := l; args := a |}];
        commands := commands s |}).

Definition log (text : string) : Sh unit := print LevelLog [VStr text].

(** Run a step on the files. *)
Definition on_disk {A} (f : Fs.Node -> Completion A * Fs.Node) : Sh A :=
  fun s =>
    let (c, d) := f (disk s) in
    (c, {| disk := d; console := console s; commands := commands s |}).

Definition read_disk {A} (f : Fs.Node -> A) : Sh A :=
  fun s => (Normal (f (disk s)), s).

Section Scripts.

Context {S : Shell}.

(** The error Node throws for a failed file-system call. *)
Definition fs_error (code description syscall : string) (p : Fs.Path) : Value :=
  VError "Error"
    (code +:+ ": " +:+ description +:+ ", " +:+ syscall +:+ " '" +:+ absolute p +:+ "'")
    ("Error: " +:+ code).

Definition ENOENT := fs_error "ENOENT" "no such file or directory".
Definition ENOTDIR := fs_error "ENOTDIR" "not a directory".
Definition EISDIR := fs_error "EISDIR" "illegal operation on a directory".
Definition EEXIST := fs_error "EEXIST" "file already exists".
Definition ENOTEMPTY := fs_error "ENOTEMPTY" "directory not empty".
Definition EINVAL := fs_error "EINVAL" "invalid argument".

(** [fs.rmSync(p, { recursive: true, force: true })] *)
Definition rmSync (p : Fs.Path) : Sh unit :=
  on_disk (fun d =>
    match Fs.resolve p d with
    | Fs.Found _ => (Normal tt, default d (Fs.put p None d))
    | Fs.Missing => (Normal tt, d)
    | Fs.NotADirectory => (Throw (ENOTDIR "rm" p), d)
    end).

(** [fs.mkdirSync(p, { recursive: true })] *)
Definition mkdirSync (p : Fs.Path) : Sh unit :=
  on_disk (fun d =>
    match Fs.mkdirp p d with
    | Some d' => (Normal tt, d')
    | None =>
        (Throw (match Fs.resolve p d with
                | Fs.Found _ => EEXIST "mkdir" p
                | _ => ENOTDIR "mkdir" p
                end), d)
    end).

Definition write_node (syscall : string) (p : Fs.Path) (content : string) (d : Fs.Node)
  : Completion unit * Fs.Node :=
  match Fs.resolve p d with
  | Fs.Found (Fs.Dir _) => (Throw (EISDIR syscall p), d)
  | Fs.NotADirectory => (Throw (ENOTDIR syscall p), d)
  | _ =>
      match Fs.put p (Some (Fs.File content)) d with
      | Some d' => (Normal tt, d')
      | None => (Throw (ENOENT syscall p), d)
      end
  end.

(** [fs.writeFileSync(p, content)] *)
Definition writeFileSync (p : Fs.Path) (content : string) : Sh unit :=
  on_disk (write_node "open" p content).

(** [fs.copyFileSync(src, dest)] *)
Definition copyFileSync (src dest : Fs.Path) : Sh unit :=
  on_disk (fun d =>
    match Fs.resolve src d with
    | Fs.Found (Fs.File content) => write_node "copyfile" dest content d
    | Fs.Found (Fs.Dir _) => (Throw (EISDIR "copyfile" src), d)
    | Fs.Missing => (Throw (ENOENT "copyfile" src), d)
    | Fs.NotADirectory => (Throw (ENOTDIR "copyfile" src), d)
    end).

(** [fs.readdirSync(p)] *)
Definition readdirSync (p : Fs.Path) : Sh (list string) :=
  on_disk (fun d =>
    match Fs.resolve p d with
    | Fs.Found (Fs.Dir entries) => (Normal (map fst entries), d)
    | Fs.Found (Fs.File _) => (Throw (ENOTDIR "scandir" p), d)
    | Fs.Missing => (Throw (ENOENT "scandir" p), d)
    | Fs.NotADirectory => (Throw (ENOTDIR "scandir" p), d)
    end).

(** [fs.renameSync(old, new)] *)
Definition renameSync (old new : Fs.Path) : Sh unit :=
  on_disk (fun d =>
    let move node :=
      match Fs.put old None d with
      | Some d1 =>
          match Fs.put new (Some node) d1 with
          | Some d2 => (Normal tt, d2)
          | None => (Throw (ENOENT "rename" old), d)
          end
      | None => (Throw (ENOENT "rename" old), d)
      end in
    match Fs.resolve old d with
    | Fs.Missing => (Throw (ENOENT "rename" old), d)
    | Fs.NotADirectory => (Throw (ENOTDIR "rename" old), d)
    | Fs.Found node =>
        if Fs.same_path old new then (Normal tt, d)
        else if Fs.is_prefix old new then (Throw (EINVAL "rename" old), d)
        else
          match Fs.resolve new d, node with
          | Fs.NotADirectory, _ => (Throw (ENOTDIR "rename" old), d)
          | Fs.Found (Fs.Dir (_ :: _)), Fs.Dir _ => (Throw (ENOTEMPTY "rename" old), d)
          | Fs.Found (Fs.Dir _), Fs.File _ => (Throw (EISDIR "rename" old), d)
          | Fs.Found (Fs.File _), Fs.Dir _ => (Throw (ENOTDIR "rename" old), d)
          | _, _ => move node
          end
    end).

(** [execSync(command, options)] *)
Definition exec (command : string) (options : ExecOptions) : Sh unit :=
  fun s =>
    let (c, d) := execSync command options (disk s) in
    (c, {| disk := d; console := console s;
           commands := commands s ++ [(command, options)] |}).

(** ** The install script ([src/scripts/install-components.js], lines 1-163) *)

Definition tempDir : Fs.Path := ["temp"].

Definition packageJson : Value :=
  VObj [ ("name", VStr "temp-components");
         ("version", VStr "1.0.0");
         ("private", VBool true);
         ("scripts",
          VObj [("install:components", VStr "npx shadcn@latest add --all --yes")]);
         ("dependencies",
          VObj [ ("react", VStr "^18.0.0");
                 ("react-dom", VStr "^18.0.0");
                 ("tailwind-merge", VStr "^3.3.1");
                 ("clsx", VStr "^2.1.1");
                 ("class-variance-authority", VStr "^0.7.1") ]);
         ("devDependencies",
          VObj [ ("typescript", VStr "^5.0.0");
                 ("@types/react", VStr "^18.0.0");
                 ("@types/react-dom", VStr "^18.0.0") ]) ].

Definition componentsJson : Value :=
  VObj [ ("$schema", VStr "https://ui.shadcn.com/schema.json");
         ("style", VStr "new-york");
         ("rsc", VBool true);
         ("tsx", VBool true);
         ("tailwind",
          VObj [ ("config", VStr "tailwind.config.js");
                 ("css", VStr "index.css");
                 ("baseColor", VStr "neutral");
                 ("cssVariables", VBool true);
                 ("prefix", VStr EmptyString) ]);
         ("iconLibrary", VStr "lucide");
         ("aliases",
          VObj [ ("components", VStr "@/components");
                 ("utils", VStr "@/lib/utils");
                 ("ui", VStr "@/components/ui");
                 ("lib", VStr "@/lib");
                 ("hooks", VStr "@/hooks") ]);
         ("registries", VObj []) ].

Definition libUtils : string :=
  concat_lines
    [ EmptyString;
      "  import { twMerge } from " +:+ dq +:+ "tailwind-merge" +:+ dq +:+ ";";
      "  import { clsx } from " +:+ dq +:+ "clsx" +:+ dq +:+ ";";
      EmptyString;
      "  export function cn(...inputs) {";
      "    return twMerge(clsx(inputs));";
      "  }";
      "  " ].

Definition tsconfigJson : Value :=
  VObj [ ("compilerOptions",
          VObj [ ("target", VStr "ES2017");
                 ("lib", VArr [VStr "dom"; VStr "dom.iterable"; VStr "es6"]);
                 ("allowJs", VBool true);
                 ("skipLibCheck", VBool true);
                 ("strict", VBool true);
                 ("noEmit", VBool true);
                 ("esModuleInterop", VBool true);
                 ("module", VStr "esnext");
                 ("moduleResolution", VStr "bundler");
                 ("resolveJsonModule", VBool true);
                 ("isolatedModules", VBool true);
                 ("jsx", VStr "preserve");
                 ("incremental", VBool true);
                 ("plugins", VArr [VObj [("name", VStr "next")]]);
                 ("baseUrl", VStr ".");
                 ("paths", VObj [("@/*", VArr [VStr "./*"])]) ]);
         ("include",
          VArr [ VStr "next-env.d.ts"; VStr "**/*.ts"; VStr "**/*.tsx";
                 VStr ".next/types/**/*.ts" ]);
         ("exclude", VArr [VStr "node_modules"]) ].

Definition shadcn_command : string := "npx shadcn@latest add --all --yes".

Definition shadcn_options : ExecOptions :=
  {| stdio := "inherit"; exec_cwd := Some tempDir; INIT_CWD := Some tempDir |}.

(** Lines 10-133: a fresh [temp] directory with everything the CLI needs. *)
Definition prepare_temp : Sh unit :=
  log "🚀 Installing shadcn/ui components directly from library..." ;;
  let! there := read_disk (Fs.existsSync tempDir) in
  (if there then rmSync tempDir else ret tt) ;;
  mkdirSync tempDir ;;
  mkdirSync (tempDir ++ ["components"]) ;;
  mkdirSync (tempDir ++ ["lib"]) ;;
  mkdirSync (tempDir ++ ["hooks"]) ;;
  writeFileSync (tempDir ++ ["package.json"]) (JSON_stringify packageJson) ;;
  log "✅ Created package.json for shadcn CLI" ;;
  copyFileSync ["index.css"] (tempDir ++ ["index.css"]) ;;
  log "✅ Copied css from root to temp" ;;
  writeFileSync (tempDir ++ ["lib"; "utils.ts"]) libUtils ;;
  log "✅ Created lib/utils.ts for shadcn CLI" ;;
  writeFileSync (tempDir ++ ["tsconfig.json"]) (JSON_stringify tsconfigJson) ;;
  log "✅ Created tsconfig.json for shadcn CLI" ;;
  writeFileSync (tempDir ++ ["components.json"]) (JSON_stringify componentsJson) ;;
  log "✅ Created components.json for shadcn CLI" ;;
  copyFileSync ["tailwind.config.js"] (tempDir ++ ["tailwind.config.js"]) ;;
  log "✅ Copied tailwind.config.js from root to temp".

(** Lines 135-156: the CLI call, whose failure is only a warning. *)
Definition install_all : Sh unit :=
  log "📦 Installing shadcn/ui components using CLI..." ;;
  try_catch
    (print LevelLog [VStr "Installing all components... at "; VStr (absolute tempDir)] ;;
     exec shadcn_command shadcn_options ;;
     log "✅ All components installed successfully")
    (fun error =>
       print LevelWarn [VStr "⚠️ Failed to install all components:"; get error "message"]).

Definition completion_lines : list LogLine :=
  [ {| level := LevelLog; args := [VStr "✅ Component installation completed!"] |};
    {| level := LevelLog; args := [VStr "📁 Components installed in temp/ directory"] |};
    {| level := LevelLog;
       args := [VStr "🔧 Components are now available for transpilation from node_modules"] |} ].

Definition installComponents : Sh unit :=
  prepare_temp ;;
  install_all ;;
  log "✅ Component installation completed!" ;;
  log "📁 Components installed in temp/ directory" ;;
  log "🔧 Components are now available for transpilation from node_modules".

(** Line 163: [installComponents().catch(console.error)] *)
Definition install_main : Sh unit :=
  try_catch installComponents (fun error => print LevelError [error]).

(** ** The build script ([src/unnamed/part_001]) *)

(** [s.endsWith(suffix)] *)
Fixpoint endsWith (s suffix : string) : bool :=
  String.eqb s suffix
  || match s with
     | EmptyString => false
     | String _ rest => endsWith rest suffix
     end.

(** The text before the last dot of a name and the text from that dot on. *)
Fixpoint last_dot (name : string) : option (string * string) :=
  match name with
  | EmptyString => None
  | String c rest =>
      match last_dot rest with
      | Some (before, ext) => Some (String c before, ext)
      | None => if Ascii.eqb c "." then Some (EmptyString, name) else None
      end
  end.

(** [path.extname(name)] for a name without separators, as a directory
    listing gives them: from the last dot on, unless there is no dot, the
    dot comes first, or the name is [..]. *)
Definition extname (name : string) : string :=
  if String.eqb name ".." then EmptyString
  else
    match last_dot name with
    | Some (String _ _, ext) => ext
    | _ => EmptyString
    end.

(** [path.basename(name, ext)] for a name without separators. *)
Definition basename (name ext : string) : string :=
  if String.eqb ext EmptyString then name
  else if String.eqb name ext then EmptyString
  else if endsWith name ext
  then String.substring 0 (String.length name - String.length ext) name
  else name.

(** [text.split('\n').length] *)
Fixpoint split_length (text : string) : nat :=
  match text with
  | EmptyString => 1
  | String c rest => if Ascii.eqb c "010" then Datatypes.S (split_length rest) else split_length rest
  end.

Definition export_line (from : string) (file : string) : string :=
  "export * from '" +:+ from +:+ basename file (extname file) +:+ "';".

Definition is_ts_or_tsx (file : string) : bool :=
  endsWith file ".ts" || endsWith file ".tsx".

Definition not_index (file : string) : bool := negb (String.eqb file "index.ts").

(** The text of [components/index.ts] from the listing of [components/ui]
    (lines 35-38). *)
Definition ui_index (listing : list string) : string :=
  concat_lines (map (export_line "./ui/") (List.filter is_ts_or_tsx listing)).

(** The same from the listing of [components] itself (lines 41-45). *)
Definition flat_index (listing : list string) : string :=
  concat_lines
    (map (export_line "./")
       (List.filter not_index (List.filter is_ts_or_tsx listing))).

(** The text of [lib/index.ts] and of [hooks/index.ts] (lines 69-73, 85-89). *)
Definition ts_index (listing : list string) : string :=
  concat_lines
    (map (export_line "./")
       (List.filter not_index (List.filter (fun file => endsWith file ".ts") listing))).

Definition componentsDir : Fs.Path := tempDir ++ ["components"].
Definition libDir : Fs.Path := tempDir ++ ["lib"].
Definition hooksDir : Fs.Path := tempDir ++ ["hooks"].
Definition nodeModulesDir : Fs.Path := ["node_modules"; "@react-renderer"; "components"].

Definition utilsContent : string :=
  concat_lines
    [ "import { type ClassValue, clsx } from " +:+ dq +:+ "clsx" +:+ dq;
      "import { twMerge } from " +:+ dq +:+ "tailwind-merge" +:+ dq;
      EmptyString;
      "export function cn(...inputs: ClassValue[]) {";
      "  return twMerge(clsx(inputs))";
      "}" ].

Definition count (n : nat) : Value := VNum (Z.of_nat n).

(** Lines 27-50. *)
Definition components_index : Sh unit :=
  let componentsIndexPath := componentsDir ++ ["index.ts"] in
  let uiDir := componentsDir ++ ["ui"] in
  let! ui := read_disk (Fs.existsSync uiDir) in
  let! componentFiles :=
    (if ui
     then let! listing := readdirSync uiDir in ret (ui_index listing)
     else let! listing := readdirSync componentsDir in ret (flat_index listing)) in
  print LevelLog [ VStr "componentFiles"; VStr componentFiles;
                   VStr "componentsIndexPath"; VStr (absolute componentsIndexPath) ] ;;
  writeFileSync componentsIndexPath componentFiles ;;
  print LevelLog [ VStr "✅ Components index created with";
                   count (split_length componentFiles); VStr "exports" ].

(** Lines 55-66: make sure [lib/utils.ts] is there. *)
Definition ensure_utils : Sh unit :=
  let utilsPath := libDir ++ ["utils.ts"] in
  let! utils := read_disk (Fs.existsSync utilsPath) in
  if negb utils
  then writeFileSync utilsPath utilsContent ;; log "✅ Created utils.ts file"
  else ret tt.

(** Lines 68-80. *)
Definition lib_index_files : Sh unit :=
  let libIndexPath := libDir ++ ["index.ts"] in
  let! there := read_disk (Fs.existsSync libDir) in
  let! filled :=
    (if there
     then let! listing := readdirSync libDir in ret (Nat.ltb 0 (length listing))
     else ret false) in
  if filled
  then
    let! listing := readdirSync libDir in
    let libFiles := ts_index listing in
    writeFileSync libIndexPath libFiles ;;
    print LevelLog [ VStr "✅ Lib index created with";
                     count (split_length libFiles); VStr "exports" ]
  else
    writeFileSync libIndexPath ("// No lib files found" +:+ nl) ;;
    log "✅ Lib index created (empty)".

(** Lines 52-80. *)
Definition lib_index : Sh unit := ensure_utils ;; lib_index_files.

(** Lines 82-96. *)
Definition hooks_index : Sh unit :=
  let hooksIndexPath := hooksDir ++ ["index.ts"] in
  let! there := read_disk (Fs.existsSync hooksDir) in
  let! filled :=
    (if there
     then let! listing := readdirSync hooksDir in ret (Nat.ltb 0 (length listing))
     else ret false) in
  if filled
  then
    let! listing := readdirSync hooksDir in
    let hookFiles := ts_index listing in
    writeFileSync hooksIndexPath hookFiles ;;
    print LevelLog [ VStr "✅ Hooks index created with";
                     count (split_length hookFiles); VStr "exports" ]
  else
    writeFileSync hooksIndexPath ("// No hooks files found" +:+ nl) ;;
    log "✅ Hooks index created (empty)".

Definition tsup_options : ExecOptions :=
  {| stdio := "inherit"; exec_cwd := None; INIT_CWD := None |}.

(** [files.forEach(file => fs.renameSync(src, dest))] of lines 117-121. *)
Fixpoint move_up (files : list string) (from to : Fs.Path) : Sh unit :=
  match files with
  | [] => ret tt
  | file :: rest => renameSync (from ++ [file]) (to ++ [file]) ;; move_up rest from to
  end.

(** Lines 110-127. *)
Definition fix_nesting : Sh unit :=
  let componentsNestedDir := nodeModulesDir ++ ["components"] in
  let! outer := read_disk (Fs.existsSync componentsNestedDir) in
  if outer
  then
    let nestedComponentsDir := componentsNestedDir ++ ["components"] in
    let! inner := read_disk (Fs.existsSync nestedComponentsDir) in
    if inner
    then
      let! files := readdirSync nestedComponentsDir in
      move_up files nestedComponentsDir nodeModulesDir ;;
      rmSync nestedComponentsDir ;;
      rmSync componentsNestedDir ;;
      log "✅ Fixed nested components directory structure"
    else ret tt
  else ret tt.

Definition packageJsonContent : Value :=
  VObj [ ("name", VStr "@react-renderer/components");
         ("version", VStr "1.0.0");
         ("description", VStr "React components for server-side rendering");
         ("main", VStr "index.js");
         ("module", VStr "index.mjs");
         ("types", VStr "index.d.ts");
         ("exports",
          VObj [ (".",
                  VObj [ ("import", VStr "./index.mjs");
                         ("require", VStr "./index.js");
                         ("types", VStr "./index.d.ts") ]);
                 ("./lib",
                  VObj [ ("import", VStr "lib/index.mjs");
                         ("require", VStr "lib/index.js");
                         ("types", VStr "lib/index.d.ts") ]);
                 ("./hooks",
                  VObj [ ("import", VStr "./hooks/index.mjs");
                         ("require", VStr "./hooks/index.js");
                         ("types", VStr "./hooks/index.d.ts") ]) ]);
         ("files",
          VArr [VStr "*.js"; VStr "*.mjs"; VStr "*.d.ts"; VStr "lib/"; VStr "hooks/"]);
         ("peerDependencies",
          VObj [("react", VStr ">=18.0.0"); ("react-dom", VStr ">=18.0.0")]);
         ("dependencies",
          VObj [ ("@radix-ui/react-slot", VStr "^1.2.3");
                 ("class-variance-authority", VStr "^0.7.1");
                 ("clsx", VStr "^2.1.1");
                 ("tailwind-merge", VStr "^3.3.1") ]) ].

(** The body of the [try] block (lines 10-188). *)
Definition build_try : Sh unit :=
  log (nl +:+ "📝 Step 3: Creating index files from installed components...") ;;
  components_index ;;
  lib_index ;;
  hooks_index ;;
  log (nl +:+ "📁 Step 4: Creating node_modules structure...") ;;
  let! there := read_disk (Fs.existsSync nodeModulesDir) in
  (if negb there then mkdirSync nodeModulesDir else ret tt) ;;
  log (nl +:+ "🔨 Step 5: Building with tsup...") ;;
  exec "npx tsup" tsup_options ;;
  log (nl +:+ "📁 Step 6: Fixing directory structure...") ;;
  fix_nesting ;;
  log (nl +:+ "📋 Step 7: Setting up package...") ;;
  writeFileSync (nodeModulesDir ++ ["package.json"]) (JSON_stringify packageJsonContent) ;;
  log "✅ Created package.json" ;;
  log (nl +:+ "🧹 Step 8: Cleaning up temp directory...") ;;
  let! temp := read_disk (Fs.existsSync tempDir) in
  (if temp then rmSync tempDir ;; log "✅ Temp directory cleaned up" else ret tt) ;;
  log (nl +:+ "🎉 Build completed successfully!") ;;
  log "📦 Components are now available in node_modules/@react-renderer/components" ;;
  log "🔧 Components are bundled and ready for transpilation" ;;
  log "💡 When transpiling, components will be available from node_modules".

(** [buildComponents()], to the exit code of the process: [process.exit(1)]
    in the [catch] block, 0 when the script runs to its end. *)
Definition buildComponents : Sh nat :=
  log "🚀 Building React Renderer Components..." ;;
  try_catch
    (build_try ;; ret 0)
    (fun error =>
       print LevelError [VStr "❌ Build failed:"; get error "message"] ;;
       ret 1).

End Scripts.

End Script.

(** What [temp] holds once the install script has prepared it, given the
    stylesheet and the Tailwind configuration found in the working
    directory. *)
Definition prepared_temp {S : Script.Shell} (css tailwind : string) : Fs.Node :=
  Fs.Dir [ ("components", Fs.Dir []);
           ("lib", Fs.Dir [("utils.ts", Fs.File Script.libUtils)]);
           ("hooks", Fs.Dir []);
           ("package.json", Fs.File (Script.JSON_stringify Script.packageJson));
           ("index.css", Fs.File css);
           ("tsconfig.json", Fs.File (Script.JSON_stringify Script.tsconfigJson));
           ("components.json", Fs.File (Script.JSON_stringify Script.componentsJson));
           ("tailwind.config.js", Fs.File tailwind) ].

(** A step of a script that runs no command. *)
Definition runs_nothing {A} (m : Script.Sh A) : Prop :=
  forall s c s', m s = (c, s') -> Script.commands s' = Script.commands s.

(** ** A test double for the shell *)

Module Bench.

(** A CLI that is not installed. *)
Definition failing_exec (command : string) (options : Script.ExecOptions) (d : Fs.Node)
  : Completion unit * Fs.Node :=
  (Throw (VError "Error" ("Command failed: " +:+ command) "Error: Command failed"), d).

Definition shell : Script.Shell := {|
  Script.execSync := failing_exec;
  Script.JSON_stringify := fun v => "{ ... }";
  Script.absolute := fun p => "/work/" +:+ String.concat "/" p
|}.

Definition project : list (string * Fs.Node) :=
  [ ("index.css", Fs.File "body{margin:0}");
    ("tailwind.config.js", Fs.File "module.exports = {}");
    ("temp", Fs.Dir [("stale.txt", Fs.File "left over")]) ].

Definition process (entries : list (string * Fs.Node)) : Script.Process :=
  {| Script.disk := Fs.Dir entries; Script.console := []; Script.commands := [] |}.

End Bench.


(** A second test double: a shell whose commands succeed and leave the files
    as they are, and a working directory as the install script leaves it. *)
Module Workbench.

Definition quiet_exec (command : string) (options : Script.ExecOptions) (d : Fs.Node)
  : Completion unit * Fs.Node := (Normal tt, d).

Definition shell : Script.Shell := {|
  Script.execSync := quiet_exec;
  Script.JSON_stringify := fun v => "{ ... }";
  Script.absolute := fun p => "/work/" +:+ String.concat "/" p
|}.

Definition project : list (string * Fs.Node) :=
  [ ("temp", @prepared_temp shell "body{margin:0}" "module.exports = {}") ].

End Workbench.

(** * Properties *)

Ltac conjuncts := cbv zeta; repeat match goal with |- _ /\ _ => split end.

(** ** The value model on small inputs *)

Example truthy_blank : truthy (VStr "   ") = true.
Proof. reflexivity. Qed.

Example truthy_empty : truthy (VStr EmptyString) = false.
Proof. reflexivity. Qed.

Example typeof_null : typeof VNull = "object".
Proof. reflexivity. Qed.

Example ToString_array :
  ToString (VArr [VNum 1; VNull; VStr "a"; VArr [VNum (-2); VNaN]]) = "1,,a,-2,NaN".
Proof. reflexivity. Qed.

Example ToString_error_without_message :
  error_text (VError "Error" EmptyString "Error") = VStr "Error".
Proof. reflexivity. Qed.

Example to_json_drops_undefined :
  to_json (VObj [("success", VBool false); ("stack", VUndefined)])
  = Some (VObj [("success", VBool false)]).
Proof. reflexivity. Qed.

Example load_registry_merges :
  let mod_ := VObj [ ("__esModule", VBool true);
                    ("Button", VFun "function Button() {}");
                    ("default", VObj [("Card", VFun "function Card() {}")]) ] in
  load_registry mod_ !! "Button" = Some (VFun "function Button() {}")
  /\ load_registry mod_ !! "Card" = Some (VFun "function Card() {}")
  /\ load_registry mod_ !! "__esModule" = None.
Proof. conjuncts; vm_compute; reflexivity. Qed.

Example props_default : request_props (VObj [("code", VStr "x")]) = VObj [].
Proof. reflexivity. Qed.

Example props_null :
  request_props (VObj [("code", VStr "x"); ("props", VNull)]) = VNull.
Proof. reflexivity. Qed.

Example hello_request :
  get (response_body
         (serve (R := Fixture.runtime)
            (Fixture.request Fixture.hello_src (VObj [("title", VStr "Hi")]))
            (Fixture.server None Fixture.with_css))) "html"
  = VStr (spec_document "body{margin:0}" "<h1>Hi</h1>").
Proof. vm_compute. reflexivity. Qed.


(** ** Symbolic execution of the handler *)

Ltac unfold_handler :=
  unfold serve, initial, post_render, render_try, render_catch, transformer, evaluator,
    renderer, read_css, try_catch, bind, ret, throw, ext, ask, called, console_,
    res_status, res_json, with_host, request_code, request_props in *.

Ltac innermost x :=
  lazymatch x with
  | context [match _ with _ => _ end] => fail
  | _ => idtac
  end.

Ltac case_step :=
  match goal with
  | |- context [match ?x with _ => _ end] => innermost x; destruct x eqn:?
  end.

Lemma validation_rule (code : Value) :
  negb (truthy code) || negb (String.eqb (typeof code) "string")
  = negb (is_nonempty_string code).
Proof.
  destruct code as [| |b|n| |s| | | |]; cbn; try reflexivity.
  - now destruct b.
  - now destruct (n =? 0)%Z.
  - now rewrite negb_involutive, orb_false_r.
Qed.

(** C1 (as the code has it): the validation step rejects, before anything is
    compiled, exactly the requests whose [code] is not a non-empty string;
    every non-empty string, whitespace included, goes to the transformer. *)
Theorem C1_validation_rejects {R : Runtime} (req_body : Value) (srv : Server) :
  let ex := serve req_body srv in
  if is_nonempty_string (request_code req_body)
  then hd_error (trace ex)
       = Some (CallTransform (ToString (request_code req_body) +:+ trailer) babel_options)
  else response ex = rejection /\ trace ex = [] /\ outcome ex = Normal tt
       /\ after ex = srv.
Proof.
  intros ex. subst ex.
  pose proof (validation_rule (request_code req_body)) as Hrule.
  destruct (is_nonempty_string (request_code req_body)) eqn:Hcode; cbn in Hrule.
  - unfold_handler. rewrite Hrule. cbn.
    repeat (case_step; cbn); reflexivity.
  - unfold_handler. rewrite Hrule. cbn. destruct srv; repeat split.
Qed.

(** C1 does not hold as the specification words it: a whitespace-only
    [code] is empty after trimming, yet it passes the validation step and is
    handed to the compiler. *)
Lemma C1_whitespace_code_is_compiled :
  let req := Fixture.request Fixture.blank_src (VObj []) in
  let ex := serve (R := Fixture.runtime) req (Fixture.server None ∅) in
  spec_rejects_code (request_code req) = true
  /\ transformer_invoked ex = true
  /\ response ex <> rejection.
Proof.
  conjuncts; vm_compute; [reflexivity | reflexivity | discriminate].
Qed.

(** ** The response object is written once *)

Create HintDb keeps discriminated.

Lemma keeps_ret {A} (a : A) : keeps_res (ret a).
Proof. intros s c s' H. now inversion H. Qed.

Lemma keeps_throw {A} (e : Value) : keeps_res (@throw A e).
Proof. intros s c s' H. now inversion H. Qed.

Lemma keeps_bind {A B} (m : M A) (k : A -> M B) :
  keeps_res m -> (forall a, keeps_res (k a)) -> keeps_res (bind m k).
Proof.
  intros Hm Hk s c s' H. unfold bind in H.
  destruct (m s) as [[a|e] s1] eqn:E.
  - apply Hk in H. apply Hm in E. congruence.
  - inversion H; subst. eapply Hm; eauto.
Qed.

Lemma keeps_try_catch {A} (m : M A) (k : Value -> M A) :
  keeps_res m -> (forall e, keeps_res (k e)) -> keeps_res (try_catch m k).
Proof.
  intros Hm Hk s c s' H. unfold try_catch in H.
  destruct (m s) as [[a|e] s1] eqn:E.
  - inversion H; subst. eapply Hm; eauto.
  - apply Hk in H. apply Hm in E. congruence.
Qed.

Lemma keeps_ask {A} (f : Host -> Completion A) : keeps_res (ask f).
Proof. intros s c s' H. now inversion H. Qed.

Lemma keeps_ext {A} (f : Ext A) : keeps_res (ext f).
Proof.
  intros s c s' H. unfold ext in H.
  destruct (f (st_host s)). now inversion H.
Qed.

Lemma keeps_called (c : Call) : keeps_res (called c).
Proof. intros s c' s' H. now inversion H. Qed.

Lemma keeps_console (l : Level) (a : list Value) : keeps_res (console_ l a).
Proof. intros s c' s' H. now inversion H. Qed.

#[local] Hint Resolve keeps_ret keeps_throw keeps_ask keeps_ext keeps_called
  keeps_console : keeps.

Ltac keeps_res_tac :=
  repeat first
    [ apply keeps_bind; [| intros ?]
    | apply keeps_try_catch; [| intros ?]
    | solve [auto with keeps]
    | match goal with
      | |- keeps_res (match ?x with _ => _ end) => destruct x
      | |- keeps_res (if ?b then _ else _) => destruct b
      end ].

Section Keeps.

Context {R : Runtime}.

Lemma keeps_transformer (code : Value) : keeps_res (transformer code).
Proof. unfold transformer. keeps_res_tac. Qed.

Lemma keeps_evaluator (t : string) (props : Value) : keeps_res (evaluator t props).
Proof. unfold evaluator. keeps_res_tac. Qed.

Lemma keeps_renderer (cf props : Value) : keeps_res (renderer cf props).
Proof. unfold renderer. keeps_res_tac. Qed.

Lemma keeps_read_css : keeps_res read_css.
Proof. unfold read_css. keeps_res_tac. Qed.

End Keeps.

Lemma bind_throw_inv {A B} (m : M A) (k : A -> M B) s e s' :
  bind m k s = (Throw e, s') ->
  m s = (Throw e, s') \/ exists a s1, m s = (Normal a, s1) /\ k a s1 = (Throw e, s').
Proof.
  unfold bind. destruct (m s) as [[a|e1] s1]; intros H.
  - right. eauto.
  - left. now inversion H.
Qed.

Lemma res_json_unsent (body : Value) (s : State) :
  sent (st_res s) = None -> fst (res_json body s) = Normal tt.
Proof. intros H. unfold res_json. now rewrite H. Qed.

(** When the [try] block throws, nothing has been sent yet. *)
Lemma render_try_throws {R : Runtime} (req_body : Value) s e s' :
  sent (st_res s) = None ->
  render_try req_body s = (Throw e, s') -> sent (st_res s') = None.
Proof.
  intros Hs. unfold render_try.
  destruct (negb _ || negb _).
  - unfold bind, res_status, res_json; cbn. rewrite Hs. discriminate.
  - intros H. rewrite <- Hs. f_equal.
    apply bind_throw_inv in H as [H | (t & s1 & Ht & H)];
      [ exact (keeps_transformer _ _ _ _ H) |].
    apply keeps_transformer in Ht. rewrite <- Ht.
    apply bind_throw_inv in H as [H | (cf & s2 & Hcf & H)];
      [ exact (keeps_evaluator _ _ _ _ _ H) |].
    apply keeps_evaluator in Hcf. rewrite <- Hcf.
    apply bind_throw_inv in H as [H | (html & s3 & Hh & H)];
      [ exact (keeps_renderer _ _ _ _ _ H) |].
    apply keeps_renderer in Hh. rewrite <- Hh.
    apply bind_throw_inv in H as [H | (css & s4 & Hc & H)];
      [ exact (keeps_read_css _ _ _ H) |].
    apply keeps_read_css in Hc. rewrite <- Hc.
    unfold res_json in H. destruct (sent (st_res s4)); now inversion H.
Qed.

Lemma render_catch_unsent (e : Value) (s : State) :
  sent (st_res s) = None ->
  render_catch e s
  = (Normal tt,
     {| st_host := st_host s;
        st_console := st_console s ++ [{| level := LevelError;
                                          args := [VStr "Rendering error:"; e] |}];
        st_res := {| statusCode := 400;
                     sent := Some (wire (failure_body e (NODE_ENV (st_host s)))) |};
        st_calls := st_calls s |}).
Proof.
  intros H. unfold render_catch, bind, console_, ask, res_status, res_json; cbn.
  now rewrite H.
Qed.

(** ** Validation of the export slot *)

Lemma component_rule (v : Value) :
  negb (truthy v)
  || (negb (String.eqb (typeof v) "function") && negb (String.eqb (typeof v) "object"))
  = negb (is_function_or_object v).
Proof.
  destruct v as [| |b|n| |s| | | |]; cbn; try reflexivity.
  - now destruct b.
  - now destruct (n =? 0)%Z.
  - now destruct (String.eqb s EmptyString).
Qed.

Ltac in_trace := cbn; repeat (first [left; reflexivity | right]).

(** C2 (as the code has it): once the evaluated function has returned, what
    it left in [module.exports] is checked.  A value that is neither a
    function nor a non-null object is answered with status 400 and the
    message "No valid component factory returned from user code", and
    nothing is rendered; every function and every non-null object, invokable
    or not, passes the check and is handed to [React.createElement]. *)
Theorem C2_export_validation {R : Runtime} (req_body : Value) (srv : Server)
    (code transformed : string) (execFn : Program) (moduleObj : ModuleRecord) (h : Host) :
  request_code req_body = VStr code ->
  code <> EmptyString ->
  Babel_transformSync (code +:+ trailer) babel_options (srv_host srv)
  = Normal (Some {| bf_code := Some transformed |}) ->
  transformed <> EmptyString ->
  Function_new ("module" :: contextKeys) transformed = Normal execFn ->
  execFn {| exports := VObj [] |} (make_context (request_props req_body)) (srv_host srv)
  = (Normal moduleObj, h) ->
  let ex := serve req_body srv in
  if is_function_or_object (exports moduleObj)
  then In (CallCreateElement (exports moduleObj) (request_props req_body)) (trace ex)
  else response ex
       = {| statusCode := 400;
            sent := Some (wire (failure_body (new_Error no_component_message) (NODE_ENV h))) |}
       /\ get (response_body ex) "error" = VStr no_component_message
       /\ existsb is_createElement (trace ex) = false.
Proof.
  intros Hcode Hne Hbabel Hout Hfn Hexec ex. subst ex.
  apply String.eqb_neq in Hne, Hout.
  pose proof (component_rule (exports moduleObj)) as Hcomp.
  unfold_handler. rewrite !Hcode. cbn. rewrite Hne. cbn.
  rewrite Hbabel, Hout. cbn. rewrite Hfn. cbn. rewrite Hexec. cbn.
  rewrite Hcomp.
  destruct (is_function_or_object (exports moduleObj)); cbn.
  - repeat (case_step; cbn); in_trace.
  - unfold response_body; cbn. unfold wire, failure_body, no_component_message.
    destruct (is_development (NODE_ENV h)); cbn; repeat split.
Qed.

Lemma C2_export_validation_witness :
  response (serve (R := Fixture.runtime)
              (Fixture.request Fixture.number_src (VObj []))
              (Fixture.server None ∅))
  = {| statusCode := 400;
       sent := Some (VObj [ ("success", VBool false);
                            ("error", VStr no_component_message) ]) |}.
Proof.
  pose proof (C2_export_validation (R := Fixture.runtime)
                (Fixture.request Fixture.number_src (VObj []))
                (Fixture.server None ∅)
                Fixture.number_src (Fixture.compiled Fixture.number_src)
                (Fixture.export (VNum 42)) {| exports := VNum 42 |}
                (Fixture.host None ∅)) as H.
  cbv zeta in H. cbn [is_function_or_object exports] in H.
  specialize (H eq_refl).
  assert (Hsrc : Fixture.number_src <> EmptyString) by discriminate.
  specialize (H Hsrc eq_refl).
  assert (Hout : Fixture.compiled Fixture.number_src <> EmptyString) by discriminate.
  specialize (H Hout eq_refl eq_refl).
  destruct H as [Hr _]. rewrite Hr. reflexivity.
Defined.

(** C2 does not hold as the specification words it: a memoised component is
    an object, not an invokable value; it passes the check of the export
    slot and the request succeeds. *)
Lemma C2_object_export_is_rendered :
  let ex := serve (R := Fixture.runtime)
              (Fixture.request Fixture.memo_src (VObj []))
              (Fixture.server None ∅) in
  In (CallCreateElement Fixture.memo_object (VObj [])) (trace ex)
  /\ typeof Fixture.memo_object <> "function"
  /\ statusCode (response ex) = 200
  /\ get (response_body ex) "success" = VBool true
  /\ get (response_body ex) "error" <> VStr no_component_message.
Proof.
  conjuncts; vm_compute; [tauto | discriminate | reflexivity | reflexivity | discriminate].
Qed.

(** ** Shape of a completed request *)

Lemma wire_success_body (html : string) : wire (success_body html) = success_body html.
Proof. reflexivity. Qed.

Lemma keeps_stages {R : Runtime} (code props : Value) : keeps_res (stages code props).
Proof.
  unfold stages. apply keeps_bind; [apply keeps_transformer | intros t].
  apply keeps_bind; [apply keeps_evaluator | intros cf]. apply keeps_renderer.
Qed.

(** Past the validation step the [try] block is the three stages, the
    stylesheet and the response, in that order. *)
Lemma render_try_accepted {R : Runtime} (req_body : Value) (s : State) :
  is_nonempty_string (request_code req_body) = true ->
  render_try req_body s
  = (let! html := stages (request_code req_body) (request_props req_body) in
     let! cssContent := read_css in
     res_json (success_body (completeHTML cssContent html))) s.
Proof.
  intros Hcode. pose proof (validation_rule (request_code req_body)) as Hrule.
  rewrite Hcode in Hrule. unfold render_try, stages.
  fold (request_code req_body). fold (request_props req_body). rewrite Hrule.
  cbn [negb]. unfold bind.
  destruct (transformer _ s) as [[t|e] s1]; [| reflexivity].
  destruct (evaluator t _ s1) as [[cf|e] s2]; reflexivity.
Qed.

(** Reading the stylesheet never throws and touches neither the host nor
    the response. *)
Lemma read_css_spec {R : Runtime} (s : State) :
  exists s',
    read_css s = (Normal (stylesheet_of (st_host s)), s')
    /\ st_host s' = st_host s /\ st_res s' = st_res s.
Proof.
  unfold stylesheet_of, cssPath, altCssPath.
  unfold read_css, try_catch, bind, ret, ask, called, console_, readFileSync; cbn.
  destruct (fs (st_host s) !! path_join [dirname (st_host s); _]); cbn;
    [eexists; repeat split |].
  destruct (fs (st_host s) !! path_join [cwd (st_host s); _; _]); cbn;
    eexists; repeat split.
Qed.

(** When the [try] block completes, it has sent either the validation
    rejection or the success object around the document made of the
    stylesheet on disk and the rendered fragment. *)
Lemma render_try_completes_with {R : Runtime} (req_body : Value) (srv : Server) s' :
  render_try req_body (initial srv) = (Normal tt, s') ->
  (is_nonempty_string (request_code req_body) = false /\ st_res s' = rejection)
  \/ (exists html s1,
        stages (request_code req_body) (request_props req_body) (initial srv)
        = (Normal html, s1)
        /\ st_host s' = st_host s1
        /\ st_res s'
           = {| statusCode := 200;
                sent := Some (success_body (completeHTML (stylesheet_of (st_host s1)) html)) |}).
Proof.
  destruct (is_nonempty_string (request_code req_body)) eqn:Hcode.
  - rewrite (render_try_accepted _ _ Hcode). unfold bind at 1.
    destruct (stages _ _ (initial srv)) as [[html|e] s1] eqn:Hst; [| discriminate].
    apply keeps_stages in Hst as Hres.
    destruct (read_css_spec s1) as (s2 & Hcss & Hh & Hr).
    unfold bind. rewrite Hcss. unfold res_json. rewrite Hr, Hres. cbn.
    intros [= <-]. right. exists html, s1. cbn. rewrite Hh. auto.
  - pose proof (validation_rule (request_code req_body)) as Hrule.
    rewrite Hcode in Hrule. unfold render_try.
    fold (request_code req_body). rewrite Hrule. cbn.
    intros [= <-]. left. split; reflexivity.
Qed.

Lemma serve_cases {R : Runtime} (req_body : Value) (srv : Server) :
  let ex := serve req_body srv in
  match render_try req_body (initial srv) with
  | (Throw e, s') =>
      response ex
      = {| statusCode := 400;
           sent := Some (wire (failure_body e (NODE_ENV (st_host s')))) |}
      /\ srv_host (after ex) = st_host s'
  | (Normal _, s') => response ex = st_res s' /\ srv_host (after ex) = st_host s'
  end.
Proof.
  cbv zeta. unfold serve, post_render, try_catch. fold (initial srv).
  destruct (render_try req_body (initial srv)) as [[[]|e] s1] eqn:Htry.
  - split; reflexivity.
  - assert (Hs : sent (st_res s1) = None)
      by (eapply render_try_throws; [| exact Htry]; reflexivity).
    rewrite (render_catch_unsent e s1 Hs). split; reflexivity.
Qed.



(** ** The request boundary *)



(** ** The failure object *)



(** ** The properties of the request *)


(** ** The document *)

(** The template of lines 330-346 is the document the specification
    describes, line for line. *)
Lemma completeHTML_document (cssContent html : string) :
  completeHTML cssContent html = spec_document cssContent html.
Proof. reflexivity. Qed.

Lemma append_assoc (a b c : string) : (a +:+ b) +:+ c = a +:+ b +:+ c.
Proof.
  induction a as [| ch a IH]; [reflexivity |].
  change ((String ch a +:+ b) +:+ c) with (String ch ((a +:+ b) +:+ c)).
  now rewrite IH.
Qed.

Lemma document_closes (cssContent html : string) :
  exists before, completeHTML cssContent html = before +:+ nl +:+ "</html>".
Proof.
  exists (doc_head +:+ cssContent +:+ doc_mid +:+ html
          +:+ concat_lines [EmptyString; "    </div>"; "    "; "</body>"]).
  unfold completeHTML.
  rewrite !append_assoc. reflexivity.
Qed.

(** C6: a success response has status 200 and an [html] field holding the
    complete document: the doctype and the opening document tag first, the
    fixed head with charset, viewport and title, a style block holding the
    stylesheet found on disk, the body with the rendered fragment inside the
    container whose id is ["app"], and the closing document tag last. *)
Theorem C6_success_is_complete_document {R : Runtime} (req_body : Value) (srv : Server) :
  let ex := serve req_body srv in
  get (response_body ex) "success" = VBool true ->
  exists fragment s1,
    stages (request_code req_body) (request_props req_body) (initial srv)
    = (Normal fragment, s1)
    /\ let stylesheet := stylesheet_of (srv_host (after ex)) in
       response ex
       = {| statusCode := 200;
            sent := Some (VObj [ ("success", VBool true);
                                 ("html", VStr (completeHTML stylesheet fragment));
                                 ("message",
                                  VStr "Complete HTML document generated successfully") ]) |}
       /\ completeHTML stylesheet fragment = spec_document stylesheet fragment
       /\ String.prefix ("<!DOCTYPE html>" +:+ nl +:+ "<html") (completeHTML stylesheet fragment)
          = true
       /\ (exists before, completeHTML stylesheet fragment = before +:+ nl +:+ "</html>").
Proof.
  pose proof (serve_cases req_body srv) as H. cbv zeta in *.
  destruct (render_try req_body (initial srv)) as [[[]|e] s'] eqn:Htry;
    destruct H as [Hr Hh]; unfold response_body; rewrite Hr, Hh.
  - apply render_try_completes_with in Htry
      as [[_ ->] | (html & s1 & Hst & Hhost & ->)]; cbn; [discriminate |].
    intros _. exists html, s1. rewrite Hhost.
    split; [exact Hst | split; [reflexivity | split; [reflexivity | split]]].
    + reflexivity.
    + apply document_closes.
  - cbn. discriminate.
Qed.

Lemma C6_success_is_complete_document_witness :
  exists fragment,
    get (response_body
           (serve (R := Fixture.runtime)
              (Fixture.request Fixture.hello_src (VObj [("title", VStr "Hi")]))
              (Fixture.server None Fixture.with_css))) "html"
    = VStr (spec_document Fixture.stylesheet fragment).
Proof.
  pose proof (C6_success_is_complete_document (R := Fixture.runtime)
                (Fixture.request Fixture.hello_src (VObj [("title", VStr "Hi")]))
                (Fixture.server None Fixture.with_css)) as H.
  cbv zeta in H.
  assert (Hok : get (response_body
                       (serve (R := Fixture.runtime)
                          (Fixture.request Fixture.hello_src (VObj [("title", VStr "Hi")]))
                          (Fixture.server None Fixture.with_css))) "success"
                = VBool true) by (vm_compute; reflexivity).
  destruct (H Hok) as (fragment & s1 & _ & Hr & Hdoc & _).
  exists fragment. unfold response_body. rewrite Hr.
  transitivity (VStr (completeHTML
                        (stylesheet_of (R := Fixture.runtime)
                           (srv_host (after (serve (R := Fixture.runtime)
                              (Fixture.request Fixture.hello_src (VObj [("title", VStr "Hi")]))
                              (Fixture.server None Fixture.with_css)))))
                        fragment)); [reflexivity |].
  rewrite Hdoc. do 2 f_equal.
Defined.

(** ** The stylesheet *)

Lemma post_render_success {R : Runtime} (req_body : Value) (srv : Server)
    (fragment : string) (s1 : State) :
  is_nonempty_string (request_code req_body) = true ->
  stages (request_code req_body) (request_props req_body) (initial srv)
  = (Normal fragment, s1) ->
  exists s2,
    post_render req_body (initial srv) = (Normal tt, s2)
    /\ st_host s2 = st_host s1
    /\ st_res s2
       = {| statusCode := 200;
            sent := Some (success_body
                            (completeHTML (stylesheet_of (st_host s1)) fragment)) |}.
Proof.
  intros Hcode Hst. unfold post_render, try_catch.
  rewrite (render_try_accepted _ _ Hcode). unfold bind at 1. rewrite Hst.
  apply keeps_stages in Hst as Hres.
  destruct (read_css_spec s1) as (s2 & Hread & Hh & Hr).
  unfold bind. rewrite Hread. unfold res_json. rewrite Hr, Hres. cbn.
  eexists. repeat split. cbn. exact Hh.
Qed.

(** C8: when transformation, evaluation and rendering have succeeded and the
    stylesheet can be read at neither of its two locations, the request
    still succeeds: status 200 and the complete document around the
    fragment, with nothing in its style block. *)
Theorem C8_missing_stylesheet {R : Runtime} (req_body : Value) (srv : Server)
    (fragment : string) (s1 : State) :
  is_nonempty_string (request_code req_body) = true ->
  stages (request_code req_body) (request_props req_body) (initial srv)
  = (Normal fragment, s1) ->
  fs (st_host s1) !! cssPath (st_host s1) = None ->
  fs (st_host s1) !! altCssPath (st_host s1) = None ->
  let ex := serve req_body srv in
  outcome ex = Normal tt
  /\ response ex
     = {| statusCode := 200;
          sent := Some (success_body (completeHTML EmptyString fragment)) |}
  /\ get (response_body ex) "success" = VBool true
  /\ completeHTML EmptyString fragment = spec_document EmptyString fragment.
Proof.
  intros Hcode Hst Hcss Halt ex.
  destruct (post_render_success _ _ _ _ Hcode Hst) as (s2 & Hrun & _ & Hres).
  subst ex. unfold response_body, serve. fold (initial srv). rewrite Hrun.
  cbn [outcome response]. rewrite Hres.
  unfold stylesheet_of. rewrite Hcss, Halt. repeat split.
Qed.

Lemma C8_missing_stylesheet_witness :
  response (serve (R := Fixture.runtime)
              (Fixture.request Fixture.hello_src (VObj [("title", VStr "Hi")]))
              (Fixture.server None ∅))
  = {| statusCode := 200;
       sent := Some (success_body (spec_document EmptyString "<h1>Hi</h1>")) |}.
Proof.
  pose proof (C8_missing_stylesheet (R := Fixture.runtime)
                (Fixture.request Fixture.hello_src (VObj [("title", VStr "Hi")]))
                (Fixture.server None ∅) "<h1>Hi</h1>") as H.
  edestruct H as (_ & Hr & _ & Hdoc);
    [reflexivity | vm_compute; reflexivity | reflexivity | reflexivity |].
  rewrite Hr, Hdoc. reflexivity.
Defined.

(** ** The transformer *)

Lemma transformer_run {R : Runtime} (code : Value) (s : State) :
  transformer code s
  = (match Babel_transformSync (ToString code +:+ trailer) babel_options (st_host s) with
     | Normal (Some {| bf_code := Some c |}) =>
         if String.eqb c EmptyString
         then Throw (new_Error "Babel transform failed")
         else Normal c
     | Normal _ => Throw (new_Error "Babel transform failed")
     | Throw e => Throw e
     end,
     {| st_host := st_host s; st_console := st_console s; st_res := st_res s;
        st_calls := st_calls s ++ [CallTransform (ToString code +:+ trailer) babel_options] |}).
Proof.
  unfold transformer, bind, called, ask, throw, ret; cbn.
  destruct (Babel_transformSync _ _ _) as [[[[c|]]|]|e]; try reflexivity.
  destruct (String.eqb c EmptyString); reflexivity.
Qed.




(** ** The registry and the files *)

Lemma bind_inv {A B} (m : M A) (k : A -> M B) s c s' :
  bind m k s = (c, s') ->
  (exists e, m s = (Throw e, s') /\ c = Throw e)
  \/ (exists a s1, m s = (Normal a, s1) /\ k a s1 = (c, s')).
Proof.
  unfold bind. destruct (m s) as [[a|e] s1]; intros H.
  - right. eauto.
  - left. inversion H; subst. eauto.
Qed.

Section HostChanges.

Context {R : Runtime}.

Lemma transformer_host (code : Value) s c s' :
  transformer code s = (c, s') -> st_host s' = st_host s.
Proof. rewrite transformer_run. now intros [= _ <-]. Qed.

Lemma evaluator_host (t : string) (props : Value) s c s' :
  evaluator t props s = (c, s') ->
  rtc (external_step props) (st_host s) (st_host s').
Proof.
  unfold evaluator, bind, called, ask, ext, throw, ret; cbn.
  destruct (Function_new _ t) as [execFn|e] eqn:Hfn; cbn.
  - destruct (execFn _ _ (st_host s)) as [[m|e] h] eqn:Hexec; cbn.
    + destruct (negb _ || _); intros [= _ <-]; cbn;
        apply rtc_once; replace h with (snd (execFn {| exports := VObj [] |}
                                               (make_context props) (st_host s)))
          by now rewrite Hexec.
      all: eapply step_user_code; exact Hfn.
    + intros [= _ <-]; cbn. apply rtc_once.
      replace h with (snd (execFn {| exports := VObj [] |}
                             (make_context props) (st_host s)))
        by now rewrite Hexec.
      eapply step_user_code; exact Hfn.
  - intros [= _ <-]. reflexivity.
Qed.

Lemma renderer_host (cf props : Value) s c s' :
  renderer cf props s = (c, s') ->
  rtc (external_step props) (st_host s) (st_host s').
Proof.
  unfold renderer, bind, called, ext; cbn.
  destruct (React_createElement cf props (st_host s)) as [[el|e] h] eqn:Hel; cbn.
  - destruct (ReactDOMServer_renderToString el h) as [c1 h1] eqn:Hrender.
    intros [= _ <-]; cbn.
    apply rtc_l with h.
    + replace h with (snd (React_createElement cf props (st_host s))) by now rewrite Hel.
      apply step_createElement.
    + apply rtc_once.
      replace h1 with (snd (ReactDOMServer_renderToString el h)) by now rewrite Hrender.
      apply step_renderToString.
  - intros [= _ <-]; cbn. apply rtc_once.
    replace h with (snd (React_createElement cf props (st_host s))) by now rewrite Hel.
    apply step_createElement.
Qed.

Lemma stages_host (code props : Value) s c s' :
  stages code props s = (c, s') ->
  rtc (external_step props) (st_host s) (st_host s').
Proof.
  unfold stages. intros H.
  apply bind_inv in H as [(e & H & _) | (t & s1 & Ht & H)].
  { apply transformer_host in H. rewrite H. reflexivity. }
  apply transformer_host in Ht. rewrite <- Ht.
  apply bind_inv in H as [(e & H & _) | (cf & s2 & Hcf & H)].
  { eapply evaluator_host; eauto. }
  etrans; [eapply evaluator_host | eapply renderer_host]; eauto.
Qed.

Lemma res_json_host (body : Value) s c s' :
  res_json body s = (c, s') -> st_host s' = st_host s.
Proof. unfold res_json. destruct (sent (st_res s)); now intros [= _ <-]. Qed.

Lemma render_try_host (req_body : Value) s c s' :
  render_try req_body s = (c, s') ->
  rtc (external_step (request_props req_body)) (st_host s) (st_host s').
Proof.
  destruct (is_nonempty_string (request_code req_body)) eqn:Hcode.
  - rewrite (render_try_accepted _ _ Hcode). intros H.
    apply bind_inv in H as [(e & H & _) | (html & s1 & Hst & H)].
    { eapply stages_host; eauto. }
    etrans; [eapply stages_host; eauto |].
    destruct (read_css_spec s1) as (s2 & Hread & Hh & _).
    unfold bind in H. rewrite Hread in H.
    apply res_json_host in H. rewrite H, Hh. reflexivity.
  - pose proof (validation_rule (request_code req_body)) as Hrule.
    rewrite Hcode in Hrule. unfold render_try.
    fold (request_code req_body). rewrite Hrule. cbn [negb].
    unfold bind, res_status. intros H. apply res_json_host in H. rewrite H.
    reflexivity.
Qed.

End HostChanges.

(** C4 (as the code has it): the handler's own statements write neither the
    registry nor the files: whatever differs in the host after a request
    was changed by the evaluated user code, which is handed the registry
    object itself, or by React rendering the component.  The stylesheet is
    not kept from startup: a successful response inlines, verbatim, what is
    on disk when the request is served. *)
Theorem C4_handler_writes_nothing {R : Runtime} (req_body : Value) (srv : Server) :
  let ex := serve req_body srv in
  rtc (external_step (request_props req_body)) (srv_host srv) (srv_host (after ex))
  /\ match get (response_body ex) "success" with
     | VBool true =>
         exists fragment,
           get (response_body ex) "html"
           = VStr (completeHTML (stylesheet_of (srv_host (after ex))) fragment)
     | _ => True
     end.
Proof.
  pose proof (serve_cases req_body srv) as H. cbv zeta in *.
  destruct (render_try req_body (initial srv)) as [[[]|e] s'] eqn:Htry;
    destruct H as [Hr Hh]; unfold response_body; rewrite Hr, Hh.
  - split; [exact (render_try_host _ _ _ _ Htry) |].
    apply render_try_completes_with in Htry
      as [[_ ->] | (html & s1 & _ & Hhost & ->)]; cbn; [exact I |].
    exists html. now rewrite Hhost.
  - split; [exact (render_try_host _ _ _ _ Htry) |]. cbn. exact I.
Qed.

(** C4 does not hold as the specification words it: user code that asks the
    resolver for the registry is given the registry object itself, and its
    assignment stays in the registry after the request; and when the
    stylesheet is rewritten on disk between two requests the second
    document carries the new text, so the stylesheet is not loaded once. *)
Lemma C4_user_code_writes_registry :
  let srv := Fixture.server None Fixture.with_css in
  let ex := serve (R := Fixture.runtime) (Fixture.request Fixture.counter_src (VObj [])) srv in
  let req := Fixture.request Fixture.hello_src (VObj [("title", VStr "Hi")]) in
  let ex1 := serve (R := Fixture.runtime) req srv in
  let ex2 := serve (R := Fixture.runtime) req
               (Fixture.rewrite_file Fixture.css_path "p{color:red}" (after ex1)) in
  (predefinedComponents (srv_host srv) !! "hits" = None
   /\ get (response_body ex) "success" = VBool true
   /\ predefinedComponents (srv_host (after ex)) !! "hits" = Some (VNum 1))
  /\ (get (response_body ex1) "html"
        = VStr (completeHTML "body{margin:0}" "<h1>Hi</h1>")
      /\ get (response_body ex2) "html"
         = VStr (completeHTML "p{color:red}" "<h1>Hi</h1>")).
Proof. conjuncts; vm_compute; reflexivity. Qed.

(** ** Requests in sequence *)

Create HintDb blind discriminated.

Lemma blind_ret {A} (a : A) : console_blind (ret a).
Proof. intros s t H. split; [reflexivity | exact H]. Qed.

Lemma blind_throw {A} (e : Value) : console_blind (@throw A e).
Proof. intros s t H. split; [reflexivity | exact H]. Qed.



Lemma blind_ask {A} (f : Host -> Completion A) : console_blind (ask f).
Proof.
  intros s t (Hh & Hr & Hc). unfold ask; cbn. rewrite Hh. repeat split; assumption.
Qed.

Lemma blind_ext {A} (f : Ext A) : console_blind (ext f).
Proof.
  intros s t (Hh & Hr & Hc). unfold ext. rewrite Hh.
  destruct (f (st_host t)); cbn. repeat split; assumption.
Qed.

Lemma blind_called (c : Call) : console_blind (called c).
Proof. intros s t (Hh & Hr & Hc). unfold called; cbn. rewrite Hc. repeat split; assumption. Qed.

Lemma blind_console (l : Level) (a : list Value) : console_blind (console_ l a).
Proof. intros s t H. split; [reflexivity | exact H]. Qed.

Lemma blind_res_status (code : nat) : console_blind (res_status code).
Proof.
  intros s t (Hh & Hr & Hc). unfold res_status; cbn. rewrite Hr. repeat split; assumption.
Qed.

Lemma blind_res_json (body : Value) : console_blind (res_json body).
Proof.
  intros s t (Hh & Hr & Hc). unfold res_json. rewrite Hr.
  destruct (sent (st_res t)); cbn; repeat split; try assumption.
Qed.

#[local] Hint Resolve blind_ret blind_throw blind_ask blind_ext blind_called
  blind_console blind_res_status blind_res_json : blind.







(** * Further properties *)

(** * Further properties of the server *)

(** ** The registry at startup *)



(** ** GET /components *)

Lemma to_json_names (names : list string) :
  to_json (VArr (map (fun name => VObj [("name", VStr name)]) names))
  = Some (VArr (map (fun name => VObj [("name", VStr name)]) names)).
Proof.
  cbn. do 2 f_equal. induction names as [| n rest IH]; [reflexivity |].
  cbn. f_equal. exact IH.
Qed.

Lemma Object_keys_elem (m : gmap string Value) (k : string) :
  k ∈ Object_keys m <-> is_Some (m !! k).
Proof.
  unfold Object_keys. rewrite list_elem_of_fmap. split.
  - intros ([k' v] & -> & H). apply elem_of_map_to_list in H. eauto.
  - intros [v H]. exists (k, v). split; [reflexivity |].
    now apply elem_of_map_to_list.
Qed.

Lemma get_components_answer (h : Host) :
  get_components h
  = {| statusCode := 200;
       sent := Some (VObj [ ("success", VBool true);
                            ("components",
                             VArr (map (fun name => VObj [("name", VStr name)])
                                     (Object_keys (predefinedComponents h))));
                            ("count", VNum (Z.of_nat (size (predefinedComponents h)))) ]) |}.
Proof.
  unfold get_components, wire. cbv zeta.
  pose proof (to_json_names (Object_keys (predefinedComponents h))) as Hn.
  cbn [to_json] in Hn |- *. injection Hn as Hn.
  cbn. rewrite Hn. rewrite length_map. unfold Object_keys.
  rewrite length_fmap, length_map_to_list. reflexivity.
Qed.

(** X2: the listing answers with one [{ name }] entry per key of the
    registry, each key once, and [count] is the number of keys. *)
Theorem get_components_lists_registry (h : Host) :
  let names := Object_keys (predefinedComponents h) in
  let body := default VUndefined (sent (get_components h)) in
  statusCode (get_components h) = 200
  /\ get body "success" = VBool true
  /\ get body "components" = VArr (map (fun name => VObj [("name", VStr name)]) names)
  /\ get body "count" = VNum (Z.of_nat (size (predefinedComponents h)))
  /\ length names = size (predefinedComponents h)
  /\ NoDup names
  /\ (forall k, k ∈ names <-> is_Some (predefinedComponents h !! k)).
Proof.
  cbv zeta. rewrite get_components_answer. cbn [statusCode sent default].
  repeat split.
  - unfold Object_keys. now rewrite length_fmap, length_map_to_list.
  - apply NoDup_fst_map_to_list.
  - apply Object_keys_elem.
  - apply Object_keys_elem.
Qed.




(** ** Status and outcome of POST /render *)

Lemma failure_wire_facts (e : Value) (env : option string) :
  get (wire (failure_body e env)) "success" = VBool false
  /\ has_key "html" (wire (failure_body e env)) = false.
Proof.
  unfold wire, failure_body; cbn.
  destruct (to_json (error_text e)); cbn;
    destruct (is_development env); cbn;
    try destruct (to_json (get e "stack")); cbn; split; reflexivity.
Qed.


(** ** The order of the stages *)


(** ** Failures of the compiler *)

(** X7: when the compiler rejects the source, or returns nothing, the
    pipeline stops there: the compiler is the only collaborator called, the
    host is as before, and the answer is status 400 built from the
    compiler's own error, or from "Babel transform failed" when there is no
    output; a non-empty output is what the engine is given next. *)
Theorem compile_failure_stops_pipeline {R : Runtime} (req_body : Value) (srv : Server)
    (code : string) :
  request_code req_body = VStr code ->
  code <> EmptyString ->
  let ex := serve req_body srv in
  let stopped_with e :=
    response ex
    = {| statusCode := 400;
         sent := Some (wire (failure_body e (NODE_ENV (srv_host srv)))) |}
    /\ trace ex = [CallTransform (code +:+ trailer) babel_options]
    /\ srv_host (after ex) = srv_host srv in
  match Babel_transformSync (code +:+ trailer) babel_options (srv_host srv) with
  | Throw e => stopped_with e
  | Normal (Some {| bf_code := Some out |}) =>
      if String.eqb out EmptyString
      then stopped_with (new_Error "Babel transform failed")
      else trace ex !! 1 = Some (CallFunction ("module" :: contextKeys) out)
  | Normal _ => stopped_with (new_Error "Babel transform failed")
  end.
Proof.
  intros Hcode Hne. cbv zeta. apply String.eqb_neq in Hne.
  unfold_handler. rewrite !Hcode. cbn. rewrite Hne. cbn.
  destruct (Babel_transformSync _ _ _) as [[[[out|]]|]|e]; cbn;
    try (repeat split; reflexivity).
  destruct (String.eqb out EmptyString); cbn; [repeat split; reflexivity |].
  repeat (case_step; cbn); reflexivity.
Qed.

Lemma compile_failure_stops_pipeline_witness :
  let ex := serve (R := Fixture.runtime) (Fixture.request "<div" (VObj []))
              (Fixture.server None ∅) in
  get (response_body ex) "error" = VStr "user-code.jsx: Unexpected token (1:0)"
  /\ length (trace ex) = 1.
Proof.
  cbv zeta.
  pose proof (compile_failure_stops_pipeline (R := Fixture.runtime)
                (Fixture.request "<div" (VObj [])) (Fixture.server None ∅) "<div"
                eq_refl) as H.
  assert (Hne : "<div" <> EmptyString) by discriminate.
  specialize (H Hne). cbv zeta in H.
  change (Babel_transformSync ("<div" +:+ trailer) babel_options
            (srv_host (Fixture.server None ∅)))
    with (@Throw (option BabelFileResult)
            (VError "SyntaxError" "user-code.jsx: Unexpected token (1:0)"
               "SyntaxError: user-code.jsx: Unexpected token (1:0)")) in H.
  destruct H as (Hr & Ht & _). unfold response_body. rewrite Hr, Ht.
  split; reflexivity.
Defined.

(** ** Failures of the evaluation *)



(** ** Where the stylesheet comes from *)

(** X9: reading the stylesheet never fails the request and changes neither
    the host nor the response.  The file next to the package is read first
    and wins whenever it is readable; only when it is not is the file under
    the working directory read; every failed read leaves one warning on the
    console, and after two failures the stylesheet is empty. *)
Theorem read_css_falls_back {R : Runtime} (s : State) :
  let h := st_host s in
  let primary := fs h !! cssPath h in
  let alternative := fs h !! altCssPath h in
  exists lines,
    read_css s
    = (Normal (match primary, alternative with
               | Some css, _ => css
               | None, Some css => css
               | None, None => EmptyString
               end),
       {| st_host := h;
          st_console := st_console s ++ lines;
          st_res := st_res s;
          st_calls := st_calls s
                      ++ CallReadFile (cssPath h)
                         :: match primary with
                            | Some _ => []
                            | None => [CallReadFile (altCssPath h)]
                            end |})
    /\ length (warnings lines)
       = match primary, alternative with
         | Some _, _ => 0
         | None, Some _ => 1
         | None, None => 2
         end.
Proof.
  cbv zeta. unfold cssPath, altCssPath.
  unfold read_css, try_catch, bind, ret, ask, called, console_, readFileSync; cbn.
  destruct (fs (st_host s) !! path_join [dirname (st_host s); _]); cbn.
  { eexists [_; _]. rewrite <- !app_assoc. cbn. split; reflexivity. }
  destruct (fs (st_host s) !! path_join [cwd (st_host s); _; _]); cbn.
  - eexists [_; _; _]. rewrite <- !app_assoc. cbn. split; reflexivity.
  - eexists [_; _; _]. rewrite <- !app_assoc. cbn. split; reflexivity.
Qed.

(** * Properties of the editor page *)

(** ** Trimming *)

Lemma trimEnd_empty (s : string) :
  App.trimEnd s = EmptyString <-> forallb App.is_whitespace (list_ascii_of_string s) = true.
Proof.
  induction s as [| c rest IH]; cbn; [tauto |].
  destruct (App.trimEnd rest) eqn:E.
  - destruct (App.is_whitespace c); cbn; [tauto |]. split; discriminate.
  - split; [discriminate |]. intros H. apply andb_true_iff in H as [_ H].
    apply IH in H. discriminate.
Qed.

Lemma trimStart_blank (s : string) :
  forallb App.is_whitespace (list_ascii_of_string s) = true ->
  App.trimStart s = EmptyString.
Proof.
  induction s as [| c rest IH]; cbn; [reflexivity |].
  intros H. apply andb_true_iff in H as [Hc H]. rewrite Hc. auto.
Qed.

Lemma trimStart_whitespace (s : string) :
  forallb App.is_whitespace (list_ascii_of_string (App.trimStart s)) = true ->
  forallb App.is_whitespace (list_ascii_of_string s) = true.
Proof.
  induction s as [| c rest IH]; cbn; [reflexivity |].
  destruct (App.is_whitespace c) eqn:Hc; cbn; [exact IH |].
  rewrite Hc. discriminate.
Qed.

(** Trimming leaves nothing exactly of the strings made of white space. *)
Lemma trim_empty (s : string) :
  App.trim s = EmptyString <-> forallb App.is_whitespace (list_ascii_of_string s) = true.
Proof.
  unfold App.trim. rewrite trimEnd_empty. split.
  - apply trimStart_whitespace.
  - intros H. now rewrite (trimStart_blank s H).
Qed.

Lemma truthy_trim (s : string) :
  truthy (VStr (App.trim s)) = negb (forallb App.is_whitespace (list_ascii_of_string s)).
Proof.
  cbn. f_equal. destruct (String.eqb (App.trim s) EmptyString) eqn:E.
  - apply String.eqb_eq in E. apply trim_empty in E. now rewrite E.
  - apply String.eqb_neq in E. rewrite trim_empty in E.
    now destruct (forallb _ _).
Qed.

(** ** What the service can answer *)

Lemma serve_answer {R : Runtime} (req_body : Value) (srv : Server) :
  let ex := serve req_body srv in
  (is_nonempty_string (request_code req_body) = false /\ response ex = rejection)
  \/ (exists cssContent html,
        response ex
        = {| statusCode := 200;
             sent := Some (success_body (completeHTML cssContent html)) |})
  \/ (exists e env,
        response ex
        = {| statusCode := 400; sent := Some (wire (failure_body e env)) |}).
Proof.
  pose proof (serve_cases req_body srv) as H. cbv zeta in *.
  destruct (render_try req_body (initial srv)) as [[[]|e] s'] eqn:Htry;
    destruct H as [Hr _]; rewrite Hr.
  - apply render_try_completes_with in Htry
      as [[Hc ->] | (html & s1 & _ & _ & ->)]; [left | right; left]; eauto.
  - right; right. eauto.
Qed.

Lemma accepted_is_compiled {R : Runtime} (req_body : Value) (srv : Server) :
  is_nonempty_string (request_code req_body) = true ->
  hd_error (trace (serve req_body srv))
  = Some (CallTransform (ToString (request_code req_body) +:+ trailer) babel_options).
Proof.
  intros Hcode. pose proof (validation_rule (request_code req_body)) as Hrule.
  rewrite Hcode in Hrule. unfold_handler. rewrite Hrule. cbn.
  repeat (case_step; cbn); reflexivity.
Qed.

(** ** Rendering from the page *)

Lemma or_else_truthy (a b : Value) : truthy b = true -> truthy (App.or_else a b) = true.
Proof. unfold App.or_else. destruct (truthy a) eqn:E; auto. Qed.

Lemma document_nonempty (cssContent html : string) :
  truthy (VStr (completeHTML cssContent html)) = true.
Proof. reflexivity. Qed.

Lemma page_request (t : string) :
  wire (VObj [("code", VStr t); ("props", VObj [])])
  = VObj [("code", VStr t); ("props", VObj [])].
Proof. reflexivity. Qed.

(** X10: code that is empty or all white space is not sent: the page shows
    "Please enter some React component code", changes nothing else, leaves
    the service alone, and the render button is disabled on such code. *)
Theorem blank_code_is_not_sent {R : Runtime} (net : App.Network) (st : App.State)
    (srv : Server) :
  forallb App.is_whitespace (list_ascii_of_string (App.code st)) = true ->
  App.handleRender net st srv
  = (App.setError (VStr "Please enter some React component code") st, srv)
  /\ App.render_disabled st = true.
Proof.
  intros Hblank. unfold App.handleRender, App.render_disabled.
  rewrite truthy_trim, Hblank. cbn. split; [reflexivity | apply orb_true_r].
Qed.

Lemma blank_code_is_not_sent_witness :
  App.error (fst (App.handleRender (R := Fixture.runtime) App.Online
                    (App.setCode ("  " +:+ nl) App.initial) (Fixture.server None ∅)))
  = VStr "Please enter some React component code".
Proof.
  destruct (blank_code_is_not_sent (R := Fixture.runtime) App.Online
              (App.setCode ("  " +:+ nl) App.initial) (Fixture.server None ∅)) as [H _].
  - reflexivity.
  - rewrite H. reflexivity.
Defined.

(** X11: a render attempt on code that is not blank always ends with the
    loading flag cleared and the editor's text as it was; when the service
    cannot be reached the only panel shown is the error, with the network
    error's message or, if that is empty, "Failed to render component",
    and the document shown before is kept. *)
Theorem render_attempt_settles {R : Runtime} (net : App.Network) (st : App.State)
    (srv : Server) :
  forallb App.is_whitespace (list_ascii_of_string (App.code st)) = false ->
  let st' := fst (App.handleRender net st srv) in
  App.loading st' = false
  /\ App.code st' = App.code st
  /\ App.availableComponents st' = App.availableComponents st
  /\ match net with
     | App.Online => True
     | App.Offline message =>
         snd (App.handleRender net st srv) = srv
         /\ App.renderedHTML st' = App.renderedHTML st
         /\ App.error st'
            = VStr (if String.eqb message EmptyString
                    then "Failed to render component" else message)
         /\ App.panels st' = [App.ErrorPanel (App.error st')]
     end.
Proof.
  intros Hcode. cbv zeta. unfold App.handleRender.
  rewrite truthy_trim, Hcode. cbn [negb].
  destruct net as [| message]; cbn [App.axios_post_render].
  - destruct (App.settle _) as [response | err]; cbn;
      [destruct (truthy (get (get response "data") "success")) |]; repeat split.
  - cbn. unfold App.panels, App.or_else; cbn.
    destruct (String.eqb message EmptyString) eqn:E; cbn; rewrite ?E; cbn;
      repeat split.
Qed.

Lemma render_attempt_settles_witness :
  App.error (fst (App.handleRender (R := Fixture.runtime) (App.Offline "Network Error")
                    App.initial (Fixture.server None ∅)))
  = VStr "Network Error".
Proof.
  destruct (render_attempt_settles (R := Fixture.runtime) (App.Offline "Network Error")
              App.initial (Fixture.server None ∅)) as (_ & _ & _ & _ & _ & H & _).
  - vm_compute. reflexivity.
  - rewrite H. reflexivity.
Defined.

(** X12: what the page sends is never turned away by the validation of the
    service: the request carries the trimmed text, a non-empty string, and
    the first thing the service does with it is to hand it to the
    compiler. *)
Theorem page_request_is_compiled {R : Runtime} (st : App.State) (srv : Server) :
  forallb App.is_whitespace (list_ascii_of_string (App.code st)) = false ->
  let req := VObj [("code", VStr (App.trim (App.code st))); ("props", VObj [])] in
  let ex := serve req srv in
  snd (App.handleRender App.Online st srv) = after ex
  /\ is_nonempty_string (request_code req) = true
  /\ hd_error (trace ex)
     = Some (CallTransform (App.trim (App.code st) +:+ trailer) babel_options).
Proof.
  intros Hcode. cbv zeta.
  assert (Hne : is_nonempty_string
                  (request_code (VObj [("code", VStr (App.trim (App.code st)));
                                       ("props", VObj [])])) = true).
  { pose proof (truthy_trim (App.code st)) as H. rewrite Hcode in H. exact H. }
  split; [| split; [exact Hne | exact (accepted_is_compiled _ srv Hne)]].
  unfold App.handleRender. rewrite truthy_trim, Hcode. cbn [negb].
  cbv zeta. cbn [App.axios_post_render App.setError App.setLoading App.code].
  rewrite page_request.
  destruct (App.settle _) as [response | err]; reflexivity.
Qed.

Lemma page_request_is_compiled_witness :
  hd_error (trace (serve (R := Fixture.runtime)
                     (VObj [("code", VStr Fixture.hello_src); ("props", VObj [])])
                     (Fixture.server None ∅)))
  = Some (CallTransform (Fixture.hello_src +:+ trailer) babel_options).
Proof.
  destruct (page_request_is_compiled (R := Fixture.runtime)
              (App.setCode (" " +:+ Fixture.hello_src +:+ nl) App.initial)
              (Fixture.server None ∅)) as (_ & _ & H).
  - vm_compute. reflexivity.
  - exact H.
Defined.

(** X13: the page shows what the service answered.  On success the
    document is the [html] of the response and the only panel is the
    preview of it; on failure the document shown before is kept, the error
    is the [error] of the response, or axios's "Request failed with status
    code 400" when that is empty, and the only panel is the error.  The
    loading and placeholder panels are never left on screen. *)
Theorem page_shows_answer {R : Runtime} (st : App.State) (srv : Server) :
  forallb App.is_whitespace (list_ascii_of_string (App.code st)) = false ->
  let req := VObj [("code", VStr (App.trim (App.code st))); ("props", VObj [])] in
  let answer := response_body (serve req srv) in
  let st' := fst (App.handleRender App.Online st srv) in
  match get answer "success" with
  | VBool true =>
      App.renderedHTML st' = get answer "html"
      /\ App.error st' = VStr EmptyString
      /\ App.panels st' = [App.PreviewPanel (get answer "html")]
  | _ =>
      App.renderedHTML st' = App.renderedHTML st
      /\ App.error st'
         = App.or_else (get answer "error") (VStr "Request failed with status code 400")
      /\ App.panels st' = [App.ErrorPanel (App.error st')]
  end.
Proof.
  intros Hcode. cbv zeta. unfold response_body, App.handleRender.
  rewrite truthy_trim, Hcode. cbn [negb]. cbv zeta.
  cbn [App.axios_post_render App.setError App.setLoading App.code].
  rewrite page_request.
  destruct (serve_answer (VObj [("code", VStr (App.trim (App.code st)));
                                ("props", VObj [])]) srv)
    as [[Hrej _] | [(css & html & Hr) | (e & env & Hr)]].
  - pose proof (truthy_trim (App.code st)) as H. rewrite Hcode in H.
    cbn in Hrej, H. congruence.
  - cbv zeta in Hr. rewrite Hr. cbn. unfold App.panels; cbn.
    repeat split.
  - cbv zeta in Hr. rewrite Hr.
    destruct (failure_wire_facts e env) as [Hs _].
    remember (wire (failure_body e env)) as w eqn:Hw. clear Hw Hr.
    cbn. rewrite Hs. unfold App.panels, App.or_else. cbn.
    destruct (truthy (get w "error")) eqn:Herr; cbn; rewrite ?Herr; cbn;
      repeat split.
Qed.

Lemma page_shows_answer_witness :
  App.panels (fst (App.handleRender (R := Fixture.runtime) App.Online
                     (App.setCode Fixture.number_src App.initial)
                     (Fixture.server None ∅)))
  = [App.ErrorPanel (VStr no_component_message)].
Proof.
  pose proof (page_shows_answer (R := Fixture.runtime)
                (App.setCode Fixture.number_src App.initial) (Fixture.server None ∅)) as H.
  assert (Hcode : forallb App.is_whitespace
                    (list_ascii_of_string
                       (App.code (App.setCode Fixture.number_src App.initial))) = false)
    by (vm_compute; reflexivity).
  specialize (H Hcode). cbv zeta in H.
  change (get (response_body
                 (serve (R := Fixture.runtime)
                    (VObj [("code",
                            VStr (App.trim (App.code (App.setCode Fixture.number_src
                                                        App.initial))));
                           ("props", VObj [])])
                    (Fixture.server None ∅))) "success")
    with (VBool false) in H.
  destruct H as (_ & He & Hp). rewrite Hp, He. vm_compute. reflexivity.
Defined.

(** ** The list of components on the page *)

(** X14: on mount the page takes over the listing of the service: one
    [{ name }] entry per key of the registry, and no warning; when the
    service cannot be reached the list stays as it was and one warning is
    printed. *)
Theorem fetchComponents_takes_listing {R : Runtime} (net : App.Network) (st : App.State)
    (srv : Server) :
  match net with
  | App.Online =>
      App.fetchComponents net st srv
      = (App.setAvailableComponents
           (VArr (map (fun name => VObj [("name", VStr name)])
                    (Object_keys (predefinedComponents (srv_host srv))))) st,
         [])
  | App.Offline message =>
      fst (App.fetchComponents net st srv) = st
      /\ length (warnings (snd (App.fetchComponents net st srv))) = 1
  end.
Proof.
  destruct net as [| message]; [| split; reflexivity].
  unfold App.fetchComponents, App.axios_get_components.
  rewrite get_components_answer. reflexivity.
Qed.

(** * Properties of the build scripts *)

(** ** Directory entries *)

Lemma child_set_same name x es : Fs.child name (Fs.set name x es) = Some x.
Proof.
  induction es as [| [n y] rest IH]; cbn.
  - now rewrite String.eqb_refl.
  - destruct (String.eqb name n) eqn:E; cbn; rewrite E; [reflexivity | exact IH].
Qed.

Lemma child_set_other name n x es :
  name <> n -> Fs.child n (Fs.set name x es) = Fs.child n es.
Proof.
  intros Hne. induction es as [| [m y] rest IH]; cbn.
  - apply not_eq_sym, String.eqb_neq in Hne. now rewrite Hne.
  - destruct (String.eqb name m) eqn:E; cbn.
    + apply String.eqb_eq in E as <-.
      apply not_eq_sym, String.eqb_neq in Hne. now rewrite Hne.
    + now rewrite IH.
Qed.

Lemma set_set name x y es : Fs.set name x (Fs.set name y es) = Fs.set name x es.
Proof.
  induction es as [| [n z] rest IH]; cbn.
  - now rewrite String.eqb_refl.
  - destruct (String.eqb name n) eqn:E; cbn; rewrite E; [reflexivity | now rewrite IH].
Qed.

Lemma child_remove_same name es : Fs.child name (Fs.remove name es) = None.
Proof.
  induction es as [| [n y] rest IH]; cbn; [reflexivity |].
  destruct (String.eqb name n) eqn:E; cbn; [exact IH | now rewrite E].
Qed.

Lemma child_remove_other name n es :
  name <> n -> Fs.child n (Fs.remove name es) = Fs.child n es.
Proof.
  intros Hne. induction es as [| [m y] rest IH]; cbn; [reflexivity |].
  destruct (String.eqb name m) eqn:E; cbn.
  - apply String.eqb_eq in E as <-.
    apply not_eq_sym, String.eqb_neq in Hne. now rewrite Hne.
  - now rewrite IH.
Qed.

Lemma remove_absent name es : Fs.child name es = None -> Fs.remove name es = es.
Proof.
  induction es as [| [n y] rest IH]; cbn; [reflexivity |].
  destruct (String.eqb name n); [discriminate |]. intros H. now rewrite IH.
Qed.

Lemma set_absent name x es :
  Fs.child name es = None -> Fs.set name x es = es ++ [(name, x)].
Proof.
  induction es as [| [n y] rest IH]; cbn; [reflexivity |].
  destruct (String.eqb name n); [discriminate |]. intros H. now rewrite IH.
Qed.

(** Below a directory that has just been set, paths see that directory. *)
Lemma resolve_under name rest x es :
  Fs.resolve (name :: rest) (Fs.Dir (Fs.set name x es)) = Fs.resolve rest x.
Proof. cbn. now rewrite child_set_same. Qed.

Lemma resolve_beside name n rest x es :
  name <> n ->
  Fs.resolve (n :: rest) (Fs.Dir (Fs.set name x es)) = Fs.resolve (n :: rest) (Fs.Dir es).
Proof. intros Hne. cbn. now rewrite child_set_other. Qed.

Lemma put_under name r rest new x es :
  Fs.put (name :: r :: rest) new (Fs.Dir (Fs.set name x es))
  = match Fs.put (r :: rest) new x with
    | Some x' => Some (Fs.Dir (Fs.set name x' es))
    | None => None
    end.
Proof.
  cbn [Fs.put]. rewrite child_set_same.
  match goal with |- match ?t with _ => _ end = _ => destruct t end;
    [now rewrite set_set | reflexivity].
Qed.

Lemma mkdirp_under name rest x es :
  Fs.mkdirp (name :: rest) (Fs.Dir (Fs.set name x es))
  = match Fs.mkdirp rest x with
    | Some x' => Some (Fs.Dir (Fs.set name x' es))
    | None => None
    end.
Proof.
  cbn [Fs.mkdirp]. rewrite child_set_same.
  change (default (Fs.Dir []) (Some x)) with x.
  match goal with |- match ?t with _ => _ end = _ => destruct t end;
    [now rewrite set_set | reflexivity].
Qed.

(** ** The install script *)

Ltac script_unfold :=
  unfold Script.install_main, Script.installComponents, Script.install_all,
    Script.prepare_temp, Script.log, Script.print, Script.bind, Script.ret,
    Script.try_catch, Script.read_disk, Script.rmSync, Script.mkdirSync,
    Script.writeFileSync, Script.copyFileSync, Script.write_node, Script.exec,
    Script.on_disk, Fs.existsSync, Script.tempDir in *.

Ltac fs_simpl :=
  repeat (cbn;
          rewrite ?child_set_same, ?set_set, ?child_remove_same;
          rewrite ?child_set_other by discriminate;
          rewrite ?child_remove_other by discriminate).

Lemma prepare_temp_run {S : Script.Shell} (s : Script.Process)
    (entries : list (string * Fs.Node)) (css tailwind : string) :
  Script.disk s = Fs.Dir entries ->
  Fs.child "index.css" entries = Some (Fs.File css) ->
  Fs.child "tailwind.config.js" entries = Some (Fs.File tailwind) ->
  exists lines,
    Script.prepare_temp s
    = (Normal tt,
       {| Script.disk :=
            Fs.Dir (Fs.remove "temp" entries ++ [("temp", prepared_temp css tailwind)]);
          Script.console := Script.console s ++ lines;
          Script.commands := Script.commands s |})
    /\ warnings lines = [].
Proof.
  intros Hdisk Hcss Htw. destruct s as [d out cmds]. cbn in Hdisk. subst d.
  assert (Hgone : Fs.child "temp" (Fs.remove "temp" entries) = None)
    by apply child_remove_same.
  rewrite <- (set_absent _ (prepared_temp css tailwind) _ Hgone).
  script_unfold.
  destruct (Fs.child "temp" entries) as [old |] eqn:Htemp.
  - do 4 (fs_simpl; rewrite ?Htemp, ?Hgone, ?Hcss, ?Htw).
    cbn [Script.disk Script.console Script.commands].
    rewrite ?set_set, <- ?app_assoc. eexists. split; reflexivity.
  - rewrite (remove_absent _ _ Htemp) in *.
    do 4 (fs_simpl; rewrite ?Htemp, ?Hcss, ?Htw).
    cbn [Script.disk Script.console Script.commands].
    rewrite ?set_set, <- ?app_assoc. eexists. split; reflexivity.
Qed.

(** X15: with a stylesheet and a Tailwind configuration in the working
    directory, the install script hands the CLI a [temp] directory that
    holds exactly the three empty-or-seeded directories and the five files
    it writes, whatever [temp] held before; every other entry of the
    working directory is left as it was, and nothing has been run yet. *)
Theorem install_prepares_fresh_temp {S : Script.Shell} (s : Script.Process)
    (entries : list (string * Fs.Node)) (css tailwind : string) :
  Script.disk s = Fs.Dir entries ->
  Fs.child "index.css" entries = Some (Fs.File css) ->
  Fs.child "tailwind.config.js" entries = Some (Fs.File tailwind) ->
  let s' := snd (Script.prepare_temp s) in
  fst (Script.prepare_temp s) = Normal tt
  /\ Fs.resolve Script.tempDir (Script.disk s') = Fs.Found (prepared_temp css tailwind)
  /\ (forall name rest, name <> "temp" ->
        Fs.resolve (name :: rest) (Script.disk s')
        = Fs.resolve (name :: rest) (Script.disk s))
  /\ Script.commands s' = Script.commands s.
Proof.
  intros Hdisk Hcss Htw.
  destruct (prepare_temp_run s entries css tailwind Hdisk Hcss Htw) as (lines & Hrun & _).
  cbv zeta. rewrite Hrun. cbn [fst snd Script.disk Script.commands].
  pose proof (child_remove_same "temp" entries) as Hgone.
  rewrite <- (set_absent _ (prepared_temp css tailwind) _ Hgone).
  split; [reflexivity | split; [| split; [| reflexivity]]].
  - unfold Script.tempDir. now rewrite resolve_under.
  - intros name rest Hne. rewrite Hdisk.
    rewrite resolve_beside by congruence. cbn.
    now rewrite child_remove_other by congruence.
Qed.

Lemma install_prepares_fresh_temp_witness :
  Fs.resolve ["temp"; "stale.txt"]
    (Script.disk (snd (Script.prepare_temp (S := Bench.shell) (Bench.process Bench.project))))
  = Fs.Missing.
Proof.
  destruct (install_prepares_fresh_temp (S := Bench.shell) (Bench.process Bench.project)
              Bench.project "body{margin:0}" "module.exports = {}"
              eq_refl eq_refl eq_refl) as (_ & H & _).
  change ["temp"; "stale.txt"] with (Script.tempDir ++ ["stale.txt"]).
  revert H. generalize (Script.disk (snd (Script.prepare_temp (S := Bench.shell)
                                            (Bench.process Bench.project)))).
  intros d H. unfold Script.tempDir in *. cbn [app].
  destruct d as [c | es]; cbn in H |- *; [discriminate |].
  destruct (Fs.child "temp" es); [| discriminate].
  injection H as ->. reflexivity.
Defined.

(** X16: a failure of the CLI does not fail the install script.  Once
    [temp] is prepared the command is run exactly once, in [temp]; whether
    it returns or throws, the script completes, the files are as the
    command left them, the console ends with the three lines that announce
    a completed installation, and a failure shows as one warning only. *)
Theorem install_survives_cli_failure {S : Script.Shell} (s : Script.Process)
    (entries : list (string * Fs.Node)) (css tailwind : string) :
  Script.disk s = Fs.Dir entries ->
  Fs.child "index.css" entries = Some (Fs.File css) ->
  Fs.child "tailwind.config.js" entries = Some (Fs.File tailwind) ->
  let prepared :=
    Fs.Dir (Fs.remove "temp" entries ++ [("temp", prepared_temp css tailwind)]) in
  let cli := Script.execSync Script.shadcn_command Script.shadcn_options prepared in
  exists lines,
    Script.installComponents s
    = (Normal tt,
       {| Script.disk := snd cli;
          Script.console := Script.console s ++ lines ++ Script.completion_lines;
          Script.commands :=
            Script.commands s ++ [(Script.shadcn_command, Script.shadcn_options)] |})
    /\ length (warnings lines)
       = match fst cli with Normal _ => 0 | Throw _ => 1 end.
Proof.
  intros Hdisk Hcss Htw. cbv zeta.
  destruct (prepare_temp_run s entries css tailwind Hdisk Hcss Htw) as (lines & Hrun & Hw).
  unfold Script.installComponents. unfold Script.bind at 1. rewrite Hrun.
  unfold Script.install_all, Script.try_catch, Script.bind, Script.exec, Script.log,
    Script.print; cbn.
  destruct (Script.execSync _ _ _) as [[[]|e] d]; cbn.
  - eexists (lines ++ [_; _; _]). rewrite <- !app_assoc. cbn. split; [reflexivity |].
    unfold warnings in *. rewrite List.filter_app, Hw. reflexivity.
  - eexists (lines ++ [_; _; _]). rewrite <- !app_assoc. cbn. split; [reflexivity |].
    unfold warnings in *. rewrite List.filter_app, Hw. reflexivity.
Qed.

Lemma install_survives_cli_failure_witness :
  fst (Script.installComponents (S := Bench.shell) (Bench.process Bench.project))
  = Normal tt.
Proof.
  destruct (install_survives_cli_failure (S := Bench.shell) (Bench.process Bench.project)
              Bench.project "body{margin:0}" "module.exports = {}"
              eq_refl eq_refl eq_refl) as (lines & H & _).
  rewrite H. reflexivity.
Defined.

Lemma install_without_stylesheet_run {S : Script.Shell} (s : Script.Process)
    (entries : list (string * Fs.Node)) :
  Script.disk s = Fs.Dir entries ->
  Fs.child "index.css" entries = None ->
  exists lines,
    Script.installComponents s
    = (Throw (Script.ENOENT "copyfile" ["index.css"]),
       {| Script.disk :=
            Fs.Dir (Fs.set "temp"
                      (Fs.Dir [ ("components", Fs.Dir []); ("lib", Fs.Dir []);
                                ("hooks", Fs.Dir []);
                                ("package.json",
                                 Fs.File (Script.JSON_stringify Script.packageJson)) ])
                      (Fs.remove "temp" entries));
          Script.console := Script.console s ++ lines;
          Script.commands := Script.commands s |}).
Proof.
  intros Hdisk Hcss. destruct s as [d out cmds]. cbn in Hdisk. subst d.
  pose proof (child_remove_same "temp" entries) as Hgone.
  script_unfold.
  destruct (Fs.child "temp" entries) as [old |] eqn:Htemp.
  - do 4 (fs_simpl; rewrite ?Htemp, ?Hgone, ?Hcss).
    cbn [Script.disk Script.console Script.commands].
    rewrite ?set_set, <- ?app_assoc. eexists. reflexivity.
  - rewrite (remove_absent _ _ Htemp) in *.
    do 4 (fs_simpl; rewrite ?Htemp, ?Hcss).
    cbn [Script.disk Script.console Script.commands].
    rewrite ?set_set, <- ?app_assoc. eexists. reflexivity.
Qed.

(** X17: without [index.css] in the working directory the install script
    stops at the copy with ENOENT: the CLI is never run, [temp] is left
    half made (with its [package.json], without [components.json]), and
    the last thing on the console is that error, printed by the handler of
    the rejected promise. *)
Theorem install_needs_stylesheet {S : Script.Shell} (s : Script.Process)
    (entries : list (string * Fs.Node)) :
  Script.disk s = Fs.Dir entries ->
  Fs.child "index.css" entries = None ->
  let failure := Script.ENOENT "copyfile" ["index.css"] in
  let s' := snd (Script.installComponents s) in
  fst (Script.installComponents s) = Throw failure
  /\ Script.commands s' = Script.commands s
  /\ Fs.resolve ["temp"; "package.json"] (Script.disk s')
     = Fs.Found (Fs.File (Script.JSON_stringify Script.packageJson))
  /\ Fs.resolve ["temp"; "components.json"] (Script.disk s') = Fs.Missing
  /\ fst (Script.install_main s) = Normal tt
  /\ last (Script.console (snd (Script.install_main s)))
     = Some {| level := LevelError; args := [failure] |}.
Proof.
  intros Hdisk Hcss. cbv zeta.
  destruct (install_without_stylesheet_run s entries Hdisk Hcss) as (lines & Hrun).
  unfold Script.install_main, Script.try_catch. rewrite Hrun.
  cbn [fst snd Script.disk Script.commands Script.console Script.print].
  rewrite !resolve_under.
  repeat split. apply last_snoc.
Qed.

Lemma install_needs_stylesheet_witness :
  Script.commands
    (snd (Script.installComponents (S := Bench.shell)
            (Bench.process [("tailwind.config.js", Fs.File "module.exports = {}")])))
  = [].
Proof.
  destruct (install_needs_stylesheet (S := Bench.shell)
              (Bench.process [("tailwind.config.js", Fs.File "module.exports = {}")])
              [("tailwind.config.js", Fs.File "module.exports = {}")]
              eq_refl eq_refl) as (_ & H & _).
  exact H.
Defined.

(** ** The index files of the build script *)

Lemma append_cons c a b : (String c a +:+ b) = String c (a +:+ b).
Proof. reflexivity. Qed.

Lemma length_append (a b : string) :
  String.length (a +:+ b) = String.length a + String.length b.
Proof.
  induction a as [| c a IH]; [reflexivity |].
  rewrite append_cons. cbn. now rewrite IH.
Qed.

Lemma endsWith_refl (s : string) : Script.endsWith s s = true.
Proof. destruct s; cbn; now rewrite ?String.eqb_refl, ?Ascii.eqb_refl. Qed.

Lemma endsWith_append (stem ext : string) : Script.endsWith (stem +:+ ext) ext = true.
Proof.
  induction stem as [| c stem IH]; [apply endsWith_refl |].
  rewrite append_cons. cbn [Script.endsWith]. rewrite IH. apply orb_true_r.
Qed.

Lemma substring_append (stem ext : string) :
  String.substring 0 (String.length stem) (stem +:+ ext) = stem.
Proof.
  induction stem as [| c stem IH].
  - destruct ext; reflexivity.
  - rewrite append_cons. cbn. now rewrite IH.
Qed.

Lemma last_dot_append (stem ext : string) :
  Script.last_dot ext = None ->
  Script.last_dot (stem +:+ String "." ext) = Some (stem, String "." ext).
Proof.
  intros Hext. induction stem as [| c stem IH].
  - change (EmptyString +:+ String "." ext) with (String "." ext).
    cbn [Script.last_dot]. now rewrite Hext.
  - rewrite append_cons. cbn [Script.last_dot]. now rewrite IH.
Qed.

Lemma source_file_stem (stem ext : string) :
  stem <> EmptyString ->
  ext <> EmptyString ->
  Script.last_dot ext = None ->
  Script.basename (stem +:+ String "." ext) (Script.extname (stem +:+ String "." ext))
  = stem.
Proof.
  intros Hstem Hne Hext.
  assert (Hlen : String.length (stem +:+ String "." ext)
                 = String.length stem + Datatypes.S (String.length ext))
    by apply length_append.
  assert (Hpos : 0 < String.length stem) by (destruct stem; [congruence | cbn; lia]).
  unfold Script.extname.
  destruct (String.eqb (stem +:+ String "." ext) "..") eqn:E.
  { apply String.eqb_eq in E. rewrite E in Hlen. cbn in Hlen.
    destruct ext; [congruence | cbn in Hlen; lia]. }
  rewrite (last_dot_append stem ext Hext).
  destruct stem as [| c stem]; [congruence |].
  unfold Script.basename. cbn [String.eqb].
  destruct (String.eqb (String c stem +:+ String "." ext) (String "." ext)) eqn:E2.
  { apply String.eqb_eq in E2. rewrite E2 in Hlen. cbn in Hlen. lia. }
  rewrite endsWith_append, Hlen.
  replace (String.length (String c stem) + Datatypes.S (String.length ext)
           - String.length (String "." ext))
    with (String.length (String c stem)) by (cbn; lia).
  apply substring_append.
Qed.

(** X18: a file [stem.ts] or [stem.tsx] with a non-empty stem is kept for
    the index and exported under its stem, whatever dots the stem has
    itself (so [button.d.ts] is exported as [button.d]); a file named just
    [.ts] is kept as well and exported under its whole name. *)
Theorem source_file_is_exported (from stem : string) :
  stem <> EmptyString ->
  Script.is_ts_or_tsx (stem +:+ ".ts") = true
  /\ Script.is_ts_or_tsx (stem +:+ ".tsx") = true
  /\ Script.export_line from (stem +:+ ".ts") = "export * from '" +:+ from +:+ stem +:+ "';"
  /\ Script.export_line from (stem +:+ ".tsx") = "export * from '" +:+ from +:+ stem +:+ "';"
  /\ Script.export_line from ".ts" = "export * from '" +:+ from +:+ ".ts" +:+ "';".
Proof.
  intros Hstem. unfold Script.is_ts_or_tsx, Script.export_line.
  rewrite !endsWith_append.
  rewrite (source_file_stem stem "ts" Hstem) by (discriminate || reflexivity).
  rewrite (source_file_stem stem "tsx" Hstem) by (discriminate || reflexivity).
  repeat split. apply orb_true_r.
Qed.

Lemma source_file_is_exported_witness :
  Script.ui_index ["button.tsx"; "README.md"; "badge.d.ts"]
  = "export * from './ui/button';" +:+ nl +:+ "export * from './ui/badge.d';".
Proof.
  assert (Hb : "button" <> EmptyString) by discriminate.
  assert (Hd : "badge.d" <> EmptyString) by discriminate.
  destruct (source_file_is_exported "./ui/" "button" Hb) as (_ & _ & _ & H1 & _).
  destruct (source_file_is_exported "./ui/" "badge.d" Hd) as (_ & _ & H2 & _).
  unfold Script.ui_index. cbn [List.filter map].
  change (Script.is_ts_or_tsx "button.tsx") with true.
  change (Script.is_ts_or_tsx "README.md") with false.
  change (Script.is_ts_or_tsx "badge.d.ts") with true.
  cbn [List.filter map concat_lines].
  change "button.tsx" with ("button" +:+ ".tsx").
  change "badge.d.ts" with ("badge.d" +:+ ".ts").
  rewrite H1, H2. reflexivity.
Defined.

(** *** The number of exports that gets logged *)

Lemma split_length_pos (s : string) : 1 <= Script.split_length s.
Proof. induction s as [| c s IH]; cbn; [lia |]. destruct (Ascii.eqb c "010"); lia. Qed.

Lemma split_length_append (a b : string) :
  Script.split_length (a +:+ b) + 1 = Script.split_length a + Script.split_length b.
Proof.
  induction a as [| c a IH].
  - change (EmptyString +:+ b) with b. cbn. lia.
  - rewrite append_cons. cbn. destruct (Ascii.eqb c "010"); lia.
Qed.

Lemma split_length_substring (n : nat) (s : string) :
  Script.split_length s = 1 -> Script.split_length (String.substring 0 n s) = 1.
Proof.
  revert n. induction s as [| c s IH]; intros n H.
  - destruct n; reflexivity.
  - destruct n; [reflexivity |]. cbn in *.
    destruct (Ascii.eqb c "010").
    + pose proof (split_length_pos s). lia.
    + now apply IH.
Qed.

Lemma split_length_export_line (from file : string) :
  Script.split_length from = 1 -> Script.split_length file = 1 ->
  Script.split_length (Script.export_line from file) = 1.
Proof.
  intros Hfrom Hfile. unfold Script.export_line.
  assert (Hbase : Script.split_length (Script.basename file (Script.extname file)) = 1).
  { unfold Script.basename.
    destruct (String.eqb _ EmptyString); [assumption |].
    destruct (String.eqb file _); [reflexivity |].
    destruct (Script.endsWith file _); [now apply split_length_substring | assumption]. }
  pose proof (split_length_append "export * from '"
                (from +:+ Script.basename file (Script.extname file) +:+ "';")) as H1.
  pose proof (split_length_append from
                (Script.basename file (Script.extname file) +:+ "';")) as H2.
  pose proof (split_length_append (Script.basename file (Script.extname file)) "';") as H3.
  cbn [Script.split_length Ascii.eqb Bool.eqb] in H1, H3. cbn in H1, H3. lia.
Qed.

Lemma split_length_concat_lines (lines : list string) :
  Forall (fun l => Script.split_length l = 1) lines ->
  Script.split_length (concat_lines lines) = Nat.max 1 (length lines).
Proof.
  induction 1 as [| l rest Hl Hrest IH]; [reflexivity |].
  destruct rest as [| l' rest]; [cbn; exact Hl |].
  change (concat_lines (l :: l' :: rest))
    with (l +:+ String "010" (concat_lines (l' :: rest))).
  remember (concat_lines (l' :: rest)) as tail eqn:Htail.
  pose proof (split_length_append l (String "010" tail)) as H1.
  cbn in H1. cbn [length] in *. lia.
Qed.

Lemma exports_split_length (from : string) (files : list string) :
  Script.split_length from = 1 ->
  Forall (fun f => Script.split_length f = 1) files ->
  Script.split_length (concat_lines (map (Script.export_line from) files))
  = Nat.max 1 (length files).
Proof.
  intros Hfrom Hfiles. rewrite split_length_concat_lines, length_map; [reflexivity |].
  apply Forall_map. eapply Forall_impl; [exact Hfiles |].
  intros f Hf. now apply split_length_export_line.
Qed.

Lemma Forall_filter_keep {A} (P : A -> Prop) (f : A -> bool) (l : list A) :
  Forall P l -> Forall P (List.filter f l).
Proof.
  induction 1 as [| x l Hx Hl IH]; cbn; [constructor |].
  destruct (f x); [constructor |]; assumption.
Qed.

(** X19: the number of exports the build script logs for an index is the
    number of files it exported, except for an index without any export,
    for which it logs 1 (file names without a line feed). *)
Theorem logged_export_count (listing : list string) :
  Forall (fun file => Script.split_length file = 1) listing ->
  Script.split_length (Script.ui_index listing)
  = Nat.max 1 (length (List.filter Script.is_ts_or_tsx listing))
  /\ Script.split_length (Script.flat_index listing)
     = Nat.max 1 (length (List.filter Script.not_index
                            (List.filter Script.is_ts_or_tsx listing)))
  /\ Script.split_length (Script.ts_index listing)
     = Nat.max 1 (length (List.filter Script.not_index
                            (List.filter (fun file => Script.endsWith file ".ts") listing)))
  /\ Script.split_length (Script.ui_index []) = 1.
Proof.
  intros Hfiles. unfold Script.ui_index, Script.flat_index, Script.ts_index.
  repeat split; try (apply exports_split_length; [reflexivity |]);
    repeat apply Forall_filter_keep; assumption.
Qed.

Lemma logged_export_count_witness :
  Script.split_length (Script.ui_index ["button.tsx"; "README.md"; "badge.d.ts"]) = 2.
Proof.
  destruct (logged_export_count ["button.tsx"; "README.md"; "badge.d.ts"]) as (H & _).
  - repeat constructor.
  - rewrite H. reflexivity.
Defined.

(** ** Paths in an arbitrary tree *)

Lemma resolve_app (p q : Fs.Path) (d : Fs.Node) :
  Fs.resolve (p ++ q) d
  = match Fs.resolve p d with
    | Fs.Found x => Fs.resolve q x
    | Fs.Missing => Fs.Missing
    | Fs.NotADirectory => Fs.NotADirectory
    end.
Proof.
  revert d. induction p as [| a p IH]; intros d; [reflexivity |].
  cbn. destruct d as [c | es]; [reflexivity |].
  destruct (Fs.child a es); [apply IH | reflexivity].
Qed.

Lemma resolve_snoc_found (p : Fs.Path) (name : string) (d x : Fs.Node) :
  Fs.resolve (p ++ [name]) d = Fs.Found x ->
  exists es, Fs.resolve p d = Fs.Found (Fs.Dir es) /\ Fs.child name es = Some x.
Proof.
  rewrite resolve_app. destruct (Fs.resolve p d) as [[c | es] | |]; cbn; try discriminate.
  destruct (Fs.child name es) eqn:E; [| discriminate].
  intros [= ->]. eauto.
Qed.

Lemma put_cons (a b : string) (rest : Fs.Path) (new : option Fs.Node)
    (es : list (string * Fs.Node)) :
  Fs.put (a :: b :: rest) new (Fs.Dir es)
  = match Fs.child a es with
    | Some c =>
        match Fs.put (b :: rest) new c with
        | Some c' => Some (Fs.Dir (Fs.set a c' es))
        | None => None
        end
    | None => None
    end.
Proof. reflexivity. Qed.

(** A successful [put] finds the directory that holds the path and changes
    that one entry of it. *)
Lemma put_parent (p : Fs.Path) (name : string) (new : option Fs.Node) (d d' : Fs.Node) :
  Fs.put (p ++ [name]) new d = Some d' ->
  exists es,
    Fs.resolve p d = Fs.Found (Fs.Dir es)
    /\ Fs.resolve p d'
       = Fs.Found (Fs.Dir (match new with
                           | Some x => Fs.set name x es
                           | None => Fs.remove name es
                           end)).
Proof.
  revert d d'. induction p as [| a p IH]; intros d d'.
  - cbn. destruct d as [c | es]; [discriminate |]. intros [= <-]. eauto.
  - destruct d as [c | es]; [discriminate |].
    destruct (p ++ [name]) as [| b rest] eqn:Hrest.
    { destruct p; discriminate. }
    cbn [app]. rewrite Hrest, put_cons.
    destruct (Fs.child a es) as [c |] eqn:Hc; [| discriminate].
    destruct (Fs.put (b :: rest) new c) as [c' |] eqn:Hput; [| discriminate].
    intros [= <-].
    destruct (IH _ _ Hput) as (es0 & H1 & H2).
    exists es0. cbn. rewrite Hc, child_set_same. auto.
Qed.

Lemma child_In (name : string) (es : list (string * Fs.Node)) (x : Fs.Node) :
  Fs.child name es = Some x -> In name (map fst es).
Proof.
  induction es as [| [n y] rest IH]; cbn; [discriminate |].
  destruct (String.eqb name n) eqn:E; [| auto].
  apply String.eqb_eq in E. auto.
Qed.

Lemma script_bind_inv {A B} (m : Script.Sh A) (k : A -> Script.Sh B) s (b : B) s' :
  Script.bind m k s = (Normal b, s') ->
  exists a s1, m s = (Normal a, s1) /\ k a s1 = (Normal b, s').
Proof.
  unfold Script.bind. destruct (m s) as [[a | e] s1]; [eauto | discriminate].
Qed.

(** ** The index of [lib] *)

Section LibIndex.

Context {S : Script.Shell}.

Lemma ensure_utils_post (s s1 : Script.Process) :
  Script.ensure_utils s = (Normal tt, s1) ->
  exists es x lines,
    Fs.resolve Script.libDir (Script.disk s1) = Fs.Found (Fs.Dir es)
    /\ Fs.child "utils.ts" es = Some x
    /\ Script.console s1 = Script.console s ++ lines
    /\ Script.commands s1 = Script.commands s
    /\ (lines = [] \/ lines = [{| level := LevelLog; args := [VStr "✅ Created utils.ts file"] |}]).
Proof.
  destruct s as [d out cmds].
  unfold Script.ensure_utils, Script.bind, Script.read_disk, Fs.existsSync,
    Script.writeFileSync, Script.on_disk, Script.write_node, Script.log, Script.print,
    Script.ret.
  cbn -[Fs.resolve Fs.put].
  destruct (Fs.resolve ["temp"; "lib"; "utils.ts"] d) as [x | |] eqn:Hres;
    cbn -[Fs.resolve Fs.put]; rewrite ?Hres.
  - intros Heq; inversion Heq; subst; clear Heq. apply (resolve_snoc_found ["temp"; "lib"] "utils.ts") in Hres
      as (es & H1 & H2).
    exists es, x, []. cbn -[Fs.resolve]. rewrite app_nil_r. auto 6.
  - destruct (Fs.put ["temp"; "lib"; "utils.ts"] _ d) as [d1 |] eqn:Hput;
      cbn -[Fs.resolve Fs.put]; [| discriminate].
    intros Heq; inversion Heq; subst; clear Heq. apply (put_parent ["temp"; "lib"] "utils.ts") in Hput as (es & H1 & H2).
    exists (Fs.set "utils.ts" (Fs.File Script.utilsContent) es), (Fs.File Script.utilsContent).
    eexists. rewrite child_set_same. cbn -[Fs.resolve]. auto 6.
  - discriminate.
Qed.

Lemma lib_index_files_post (s1 s' : Script.Process) es x :
  Fs.resolve Script.libDir (Script.disk s1) = Fs.Found (Fs.Dir es) ->
  Fs.child "utils.ts" es = Some x ->
  Script.lib_index_files s1 = (Normal tt, s') ->
  Fs.resolve (Script.libDir ++ ["index.ts"]) (Script.disk s')
  = Fs.Found (Fs.File (Script.ts_index (map fst es)))
  /\ Script.console s'
     = Script.console s1
       ++ [{| level := LevelLog;
              args := [ VStr "✅ Lib index created with";
                        Script.count (Script.split_length (Script.ts_index (map fst es)));
                        VStr "exports" ] |}]
  /\ Script.commands s' = Script.commands s1.
Proof.
  destruct s1 as [d out cmds]. cbn -[Fs.resolve]. intros Hlib Hutils.
  destruct es as [| entry es']; [discriminate |].
  remember (entry :: es') as es eqn:Hes.
  assert (Hlen : length (map fst es) = Datatypes.S (length es'))
    by (subst es; cbn; now rewrite length_map).
  unfold Script.lib_index_files, Script.bind, Script.read_disk, Script.readdirSync,
    Script.ret, Fs.existsSync, Script.writeFileSync, Script.write_node,
    Script.print, Script.on_disk.
  do 5 (cbn -[Fs.resolve Fs.put Script.ts_index Script.split_length length];
        rewrite ?Hlib, ?Hlen).
  destruct (Fs.put ["temp"; "lib"; "index.ts"] _ d) as [d' |] eqn:Hput.
  - apply (put_parent ["temp"; "lib"] "index.ts") in Hput as (es0 & H1 & H2).
    rewrite Hlib in H1. injection H1 as <-.
    destruct (Fs.resolve ["temp"; "lib"; "index.ts"] d) as [[c | es1] | |];
      cbn -[Fs.resolve Fs.put Script.ts_index Script.split_length];
      try discriminate; intros Heq; inversion Heq; subst s'; clear Heq;
      cbn -[Fs.resolve Fs.put Script.ts_index Script.split_length];
      rewrite (resolve_app ["temp"; "lib"] ["index.ts"]), H2; cbn;
      rewrite child_set_same; auto.
  - destruct (Fs.resolve ["temp"; "lib"; "index.ts"] d) as [[c | es1] | |];
      cbn -[Fs.resolve Fs.put]; discriminate.
Qed.

End LibIndex.

(** X20: whenever the build script gets [lib/index.ts] written, the index
    is made from a listing of [lib] that has [utils.ts] in it, so it
    carries the line [export * from './utils';]: the file is written first
    if it is missing.  The fallback text for an empty [lib] is never
    written and "Lib index created (empty)" is never printed. *)
Theorem lib_index_exports_utils {S : Script.Shell} (s s' : Script.Process) :
  Script.lib_index s = (Normal tt, s') ->
  exists listing lines,
    In "utils.ts" listing
    /\ Fs.resolve (Script.libDir ++ ["index.ts"]) (Script.disk s')
       = Fs.Found (Fs.File (Script.ts_index listing))
    /\ In "export * from './utils';"
         (map (Script.export_line "./")
            (List.filter Script.not_index
               (List.filter (fun file => Script.endsWith file ".ts") listing)))
    /\ Script.console s' = Script.console s ++ lines
    /\ ~ In {| level := LevelLog; args := [VStr "✅ Lib index created (empty)"] |} lines.
Proof.
  intros Hrun. unfold Script.lib_index in Hrun.
  apply script_bind_inv in Hrun as ([] & s1 & Hensure & Hfiles).
  apply ensure_utils_post in Hensure as (es & x & lines & Hlib & Hutils & Hout & _ & Hlines).
  destruct (lib_index_files_post _ _ _ _ Hlib Hutils Hfiles) as (Hindex & Hout' & _).
  pose proof (child_In _ _ _ Hutils) as Hin.
  exists (map fst es). eexists. split; [exact Hin | split; [exact Hindex | split; [| split]]].
  - change "export * from './utils';" with (Script.export_line "./" "utils.ts").
    apply in_map. apply List.filter_In. split; [| reflexivity].
    apply List.filter_In. split; [exact Hin | reflexivity].
  - rewrite Hout', Hout, <- app_assoc. reflexivity.
  - intros Hempty. apply in_app_or in Hempty as [H | [H | []]].
    + destruct Hlines as [-> | ->]; [destruct H | destruct H as [H | []]; discriminate].
    + discriminate.
Qed.

Lemma lib_index_exports_utils_witness :
  Fs.resolve ["temp"; "lib"; "index.ts"]
    (Script.disk (snd (Script.lib_index (S := Bench.shell)
                         (Bench.process [("temp", Fs.Dir [("lib", Fs.Dir [])])]))))
  = Fs.Found (Fs.File "export * from './utils';").
Proof.
  destruct (lib_index_exports_utils (S := Bench.shell)
              (Bench.process [("temp", Fs.Dir [("lib", Fs.Dir [])])])
              (snd (Script.lib_index (S := Bench.shell)
                      (Bench.process [("temp", Fs.Dir [("lib", Fs.Dir [])])]))))
    as (listing & lines & _ & _ & _).
  - vm_compute. reflexivity.
  - vm_compute. reflexivity.
Defined.

(** ** The build script as a whole *)

Create HintDb quiet discriminated.

Lemma quiet_ret {S : Script.Shell} {A} (a : A) : runs_nothing (Script.ret a).
Proof. intros s c s' H. now inversion H. Qed.

Lemma quiet_bind {A B} (m : Script.Sh A) (k : A -> Script.Sh B) :
  runs_nothing m -> (forall a, runs_nothing (k a)) -> runs_nothing (Script.bind m k).
Proof.
  intros Hm Hk s c s' H. unfold Script.bind in H.
  destruct (m s) as [[a | e] s1] eqn:E.
  - apply Hk in H. apply Hm in E. congruence.
  - inversion H; subst. eapply Hm; eauto.
Qed.

Lemma quiet_print (l : Level) (a : list Value) : runs_nothing (Script.print l a).
Proof. intros s c s' H. now inversion H. Qed.

Lemma quiet_log (text : string) : runs_nothing (Script.log text).
Proof. apply quiet_print. Qed.

Lemma quiet_read_disk {A} (f : Fs.Node -> A) : runs_nothing (Script.read_disk f).
Proof. intros s c s' H. now inversion H. Qed.

Lemma quiet_on_disk {A} (f : Fs.Node -> Completion A * Fs.Node) :
  runs_nothing (Script.on_disk f).
Proof.
  intros s c s' H. unfold Script.on_disk in H.
  destruct (f (Script.disk s)). now inversion H.
Qed.

#[local] Hint Resolve quiet_print quiet_log quiet_read_disk quiet_on_disk : quiet.

Ltac quiet_tac :=
  repeat first
    [ apply quiet_bind; [| intros ?]
    | apply quiet_ret
    | solve [auto with quiet]
    | match goal with
      | |- runs_nothing (if ?b then _ else _) => destruct b
      end ].

Section BuildSteps.

Context {S : Script.Shell}.

Lemma quiet_rmSync p : runs_nothing (Script.rmSync p).
Proof. apply quiet_on_disk. Qed.

Lemma quiet_mkdirSync p : runs_nothing (Script.mkdirSync p).
Proof. apply quiet_on_disk. Qed.

Lemma quiet_writeFileSync p c : runs_nothing (Script.writeFileSync p c).
Proof. apply quiet_on_disk. Qed.

Lemma quiet_readdirSync p : runs_nothing (Script.readdirSync p).
Proof. apply quiet_on_disk. Qed.

Lemma quiet_renameSync a b : runs_nothing (Script.renameSync a b).
Proof. apply quiet_on_disk. Qed.

#[local] Hint Resolve quiet_rmSync quiet_mkdirSync quiet_writeFileSync quiet_readdirSync
  quiet_renameSync : quiet.

Lemma quiet_move_up files from to : runs_nothing (Script.move_up files from to).
Proof.
  induction files as [| f rest IH]; cbn [Script.move_up]; [apply quiet_ret |].
  apply quiet_bind; [auto with quiet | intros _; exact IH].
Qed.

Lemma quiet_components_index : runs_nothing Script.components_index.
Proof. unfold Script.components_index. cbv zeta. quiet_tac. Qed.

Lemma quiet_lib_index : runs_nothing Script.lib_index.
Proof.
  unfold Script.lib_index, Script.ensure_utils, Script.lib_index_files. cbv zeta.
  quiet_tac.
Qed.

Lemma quiet_hooks_index : runs_nothing Script.hooks_index.
Proof. unfold Script.hooks_index. cbv zeta. quiet_tac. Qed.

Lemma quiet_fix_nesting : runs_nothing Script.fix_nesting.
Proof.
  unfold Script.fix_nesting. cbv zeta.
  pose proof quiet_move_up. quiet_tac.
Qed.

Lemma log_keeps_disk text s c s' :
  Script.log text s = (c, s') -> Script.disk s' = Script.disk s.
Proof. intros H. now inversion H. Qed.

Lemma writeFileSync_post (p : Fs.Path) (name content : string) s s' :
  Script.writeFileSync (p ++ [name]) content s = (Normal tt, s') ->
  Fs.resolve (p ++ [name]) (Script.disk s') = Fs.Found (Fs.File content).
Proof.
  unfold Script.writeFileSync, Script.on_disk, Script.write_node.
  destruct (Fs.put (p ++ [name]) _ (Script.disk s)) as [d' |] eqn:Hput.
  - apply put_parent in Hput as (es & _ & H2).
    destruct (Fs.resolve (p ++ [name]) (Script.disk s)) as [[c | es1] | |];
      try discriminate; intros Heq; inversion Heq; subst; cbn [Script.disk];
      rewrite resolve_app, H2; cbn; now rewrite child_set_same.
  - destruct (Fs.resolve (p ++ [name]) (Script.disk s)) as [[c | es1] | |]; discriminate.
Qed.

(** The last step on the files: [temp] is removed when it is there. *)
Lemma clean_temp_post (s s' : Script.Process) (u : unit) :
  (if Fs.existsSync Script.tempDir (Script.disk s)
   then Script.bind (Script.rmSync Script.tempDir)
          (fun _ => Script.log "✅ Temp directory cleaned up")
   else Script.ret tt) s = (Normal u, s') ->
  Fs.existsSync Script.tempDir (Script.disk s') = false
  /\ (forall name rest, name <> "temp" ->
        Fs.resolve (name :: rest) (Script.disk s')
        = Fs.resolve (name :: rest) (Script.disk s)).
Proof.
  destruct (Fs.existsSync Script.tempDir (Script.disk s)) eqn:Hthere.
  - unfold Script.bind, Script.rmSync, Script.on_disk, Script.log, Script.print.
    unfold Fs.existsSync, Script.tempDir in *.
    destruct (Script.disk s) as [c | es] eqn:Hdisk; [discriminate |].
    cbn in Hthere |- *. destruct (Fs.child "temp" es) eqn:Htemp; [| discriminate].
    cbn. intros Heq; inversion Heq; subst; cbn. split.
    + now rewrite child_remove_same.
    + intros name rest Hne. now rewrite child_remove_other by congruence.
  - intros Heq; inversion Heq; subst. auto.
Qed.

Lemma build_try_post (s s' : Script.Process) :
  Script.build_try s = (Normal tt, s') ->
  Fs.existsSync Script.tempDir (Script.disk s') = false
  /\ Fs.resolve (Script.nodeModulesDir ++ ["package.json"]) (Script.disk s')
     = Fs.Found (Fs.File (Script.JSON_stringify Script.packageJsonContent))
  /\ Script.commands s' = Script.commands s ++ [("npx tsup", Script.tsup_options)].
Proof.
  intros H. unfold Script.build_try in H.
  apply script_bind_inv in H as (? & s1 & H1 & H). apply quiet_log in H1.
  apply script_bind_inv in H as (? & s2 & H2 & H). apply quiet_components_index in H2.
  apply script_bind_inv in H as (? & s3 & H3 & H). apply quiet_lib_index in H3.
  apply script_bind_inv in H as (? & s4 & H4 & H). apply quiet_hooks_index in H4.
  apply script_bind_inv in H as (? & s5 & H5 & H). apply quiet_log in H5.
  apply script_bind_inv in H as (there & s6 & H6 & H). apply quiet_read_disk in H6.
  apply script_bind_inv in H as (? & s7 & H7 & H).
  assert (H7' : Script.commands s7 = Script.commands s6).
  { revert H7. destruct (negb there); intros H7;
      [eapply quiet_mkdirSync | eapply quiet_ret]; eauto. }
  apply script_bind_inv in H as (? & s8 & H8 & H). apply quiet_log in H8.
  apply script_bind_inv in H as (? & s9 & H9 & H).
  assert (H9' : Script.commands s9
                = Script.commands s8 ++ [("npx tsup", Script.tsup_options)]).
  { unfold Script.exec in H9. destruct (Script.execSync _ _ _).
    now inversion H9. }
  apply script_bind_inv in H as (? & s10 & H10 & H). apply quiet_log in H10.
  apply script_bind_inv in H as (? & s11 & H11 & H). apply quiet_fix_nesting in H11.
  apply script_bind_inv in H as (? & s12 & H12 & H). apply quiet_log in H12.
  apply script_bind_inv in H as ([] & s13 & H13 & H).
  pose proof (quiet_writeFileSync _ _ _ _ _ H13) as H13'.
  apply writeFileSync_post in H13.
  apply script_bind_inv in H as (? & s14 & H14 & H).
  pose proof (log_keeps_disk _ _ _ _ H14) as D14. apply quiet_log in H14.
  apply script_bind_inv in H as (? & s15 & H15 & H).
  pose proof (log_keeps_disk _ _ _ _ H15) as D15. apply quiet_log in H15.
  apply script_bind_inv in H as (temp & s16 & H16 & H).
  unfold Script.read_disk in H16. inversion H16; subst temp s16; clear H16.
  apply script_bind_inv in H as (u & s17 & H17 & H).
  assert (H17' : Script.commands s17 = Script.commands s15).
  { revert H17. destruct (Fs.existsSync Script.tempDir (Script.disk s15)); intros H17.
    - eapply (quiet_bind (Script.rmSync Script.tempDir)); [apply quiet_rmSync | | exact H17].
      intros ?. apply quiet_log.
    - eapply quiet_ret; eauto. }
  apply clean_temp_post in H17 as (Hgone & Hkeep).
  apply script_bind_inv in H as (? & s18 & H18 & H).
  pose proof (log_keeps_disk _ _ _ _ H18) as D18. apply quiet_log in H18.
  apply script_bind_inv in H as (? & s19 & H19 & H).
  pose proof (log_keeps_disk _ _ _ _ H19) as D19. apply quiet_log in H19.
  apply script_bind_inv in H as (? & s20 & H20 & H).
  pose proof (log_keeps_disk _ _ _ _ H20) as D20. apply quiet_log in H20.
  pose proof (log_keeps_disk _ _ _ _ H) as D21. apply quiet_log in H.
  rewrite D21, D20, D19, D18. split; [exact Hgone | split].
  - unfold Script.nodeModulesDir in *. cbn [app] in *.
    rewrite Hkeep by discriminate. now rewrite D15, D14.
  - congruence.
Qed.

End BuildSteps.

(** X21: the build script always ends with an exit code, 0 or 1.  With 0,
    [temp] is gone, the package directory holds the [package.json] the
    script writes, and tsup is the one command that was run, once.  With 1
    (any step threw), the last line on the console is "Build failed" with
    the message of what was thrown, and the clean-up has not run. *)
Theorem build_ends_clean_or_failed {S : Script.Shell} (s : Script.Process) :
  exists code s',
    Script.buildComponents s = (Normal code, s')
    /\ match code with
       | 0 =>
           Fs.existsSync Script.tempDir (Script.disk s') = false
           /\ Fs.resolve (Script.nodeModulesDir ++ ["package.json"]) (Script.disk s')
              = Fs.Found (Fs.File (Script.JSON_stringify Script.packageJsonContent))
           /\ Script.commands s'
              = Script.commands s ++ [("npx tsup", Script.tsup_options)]
       | _ =>
           code = 1
           /\ exists thrown rest,
                Script.build_try
                  {| Script.disk := Script.disk s;
                     Script.console :=
                       Script.console s
                       ++ [{| level := LevelLog;
                              args := [VStr "🚀 Building React Renderer Components..."] |}];
                     Script.commands := Script.commands s |}
                = (Throw thrown, rest)
                /\ Script.disk s' = Script.disk rest
                /\ last (Script.console s')
                   = Some {| level := LevelError;
                             args := [VStr "❌ Build failed:"; get thrown "message"] |}
       end.
Proof.
  unfold Script.buildComponents, Script.try_catch.
  unfold Script.bind at 1. cbn [Script.log Script.print].
  unfold Script.bind at 1.
  destruct (Script.build_try _) as [[[] | e] s1] eqn:Hbuild.
  - exists 0, s1. split; [reflexivity |].
    apply build_try_post in Hbuild. exact Hbuild.
  - eexists 1, _. split; [reflexivity |]. split; [reflexivity |].
    exists e, s1. cbn. split; [reflexivity | split; [reflexivity | apply last_snoc]].
Qed.

(** Both exit codes of the build script occur. *)
Example build_succeeds_on_prepared_temp :
  fst (@Script.buildComponents Workbench.shell (Bench.process Workbench.project))
  = Normal 0.
Proof. vm_compute. reflexivity. Qed.

Example build_fails_without_tsup :
  fst (@Script.buildComponents Bench.shell (Bench.process Workbench.project))
  = Normal 1.
Proof. vm_compute. reflexivity. Qed.

Example build_fails_without_temp :
  fst (@Script.buildComponents Workbench.shell (Bench.process []))
  = Normal 1.
Proof. vm_compute. reflexivity. Qed.
